(** * Verification of [explanations.py] (data-linter)

    A shallow embedding of the result formatters of [explanations.py] and
    of the Python library functions they call, followed by the properties
    of the formatters.

    Conventions of the embedding:
    - Python [float]s are binary64 numbers: Rocq's primitive floats, with
      their IEEE 754 arithmetic.  Decimal output is computed from the exact
      binary value, correctly rounded, as CPython does.
    - Every numeric field of the input records is a double, so Python
      [int]s do not occur as values.
    - Strings are sequences of one-byte characters; the representation of a
      string is written without the [u] prefix of a Python 2 unicode
      object, which [pformat] removes anyway.
    - A Python exception is a value of [pyerr]; a function that may raise
      returns a [res]. *)

From Stdlib Require Import ZArith List String Ascii Lia Bool.
From Stdlib Require Import Floats.PrimFloat Floats.SpecFloat Floats.FloatOps
  Floats.FloatAxioms.
From stdpp Require Import base gmap sets list strings sorting.

Set Warnings "-inexact-float".

Open Scope string_scope.
Open Scope list_scope.
Open Scope nat_scope.

(* ================================================================== *)
(** * Exceptions *)

Inductive pyerr : Type :=
| ZeroDivisionError
| IndexError
| ValueError
| AttributeError.

Inductive res (A : Type) : Type :=
| Ok (a : A)
| Raise (e : pyerr).

Arguments Ok {A} a.
Arguments Raise {A} e.

Definition bind {A B : Type} (r : res A) (k : A -> res B) : res B :=
  match r with
  | Ok a => k a
  | Raise e => Raise e
  end.

Notation "'let!' x ':=' r 'in' k" := (bind r (fun x => k))
  (at level 10, x name, r at level 100, k at level 200).

(** [for x in xs: lines.extend(body x)], stopping at the first exception. *)
Fixpoint for_lines {A : Type} (body : A -> res (list string)) (xs : list A)
  : res (list string) :=
  match xs with
  | [] => Ok []
  | x :: xs' =>
      let! l := body x in
      let! ls := for_lines body xs' in
      Ok (l ++ ls)
  end.

(** A list comprehension whose element expression may raise. *)
Fixpoint map_res {A B : Type} (f : A -> res B) (xs : list A) : res (list B) :=
  match xs with
  | [] => Ok []
  | x :: xs' =>
      let! y := f x in
      let! ys := map_res f xs' in
      Ok (y :: ys)
  end.

(* ================================================================== *)
(** * Python strings *)

Module Py.

Definition squote : ascii := "039"%char.
Definition dquote : ascii := "034"%char.
Definition backslash : ascii := "092"%char.
Definition newline : ascii := "010"%char.

Definition str1 (c : ascii) : string := String c EmptyString.

Definition NL : string := str1 newline.

(** [sep.join(xs)] *)
Definition join (sep : string) (xs : list string) : string :=
  String.concat sep xs.

(** [c in s] for a character [c]. *)
Fixpoint contains (c : ascii) (s : string) : bool :=
  match s with
  | EmptyString => false
  | String a s' => Ascii.eqb a c || contains c s'
  end.

(** [s[:n]] and [s[n:]] for [0 <= n]. *)
Fixpoint take (n : nat) (s : string) : string :=
  match n, s with
  | S n', String a s' => String a (take n' s')
  | _, _ => EmptyString
  end.

Fixpoint drop (n : nat) (s : string) : string :=
  match n, s with
  | S n', String _ s' => drop n' s'
  | _, _ => s
  end.

Fixpoint spaces (n : nat) : string :=
  match n with
  | O => EmptyString
  | S n' => String " " (spaces n')
  end.

Fixpoint repeat_char (c : ascii) (n : nat) : string :=
  match n with
  | O => EmptyString
  | S n' => String c (repeat_char c n')
  end.

(** [s.lstrip(c)], [s.rstrip(c)] and [s.strip(c)] for a one-character [c]. *)
Fixpoint lstrip (c : ascii) (s : string) : string :=
  match s with
  | String a s' => if Ascii.eqb a c then lstrip c s' else s
  | EmptyString => EmptyString
  end.

Definition rstrip (c : ascii) (s : string) : string :=
  String.rev (lstrip c (String.rev s)).

Definition strip (c : ascii) (s : string) : string :=
  rstrip c (lstrip c s).

(** [s.center(width)]: CPython pads with
    [left = marg/2 + (marg & width & 1)] spaces on the left and the rest on
    the right. *)
Definition center (s : string) (width : nat) : string :=
  let n := String.length s in
  if width <=? n then s
  else
    let marg := width - n in
    let left := marg / 2 + (if Nat.odd marg && Nat.odd width then 1 else 0) in
    spaces left +:+ s +:+ spaces (marg - left).

(** [pydoc.cram(text, maxlen)]:
    [pre = max(0, (maxlen-3)//2)], [post = max(0, maxlen-3-pre)]; the
    subtraction on [nat] truncates at zero like the two [max(0, _)]. *)
Definition cram (text : string) (maxlen : nat) : string :=
  if maxlen <? String.length text then
    let pre := (maxlen - 3) / 2 in
    let post := maxlen - 3 - pre in
    take pre text +:+ "..." +:+ drop (String.length text - post) text
  else text.

(** [s.split(sep)] for a one-character separator: always at least one
    field. *)
Fixpoint split_aux (sep : ascii) (s : string) (cur : string) : list string :=
  match s with
  | EmptyString => [String.rev cur]
  | String a s' =>
      if Ascii.eqb a sep then String.rev cur :: split_aux sep s' EmptyString
      else split_aux sep s' (String a cur)
  end.

Definition split (sep : ascii) (s : string) : list string :=
  split_aux sep s EmptyString.

(** [re.sub] with the pattern "u, then a single or a double quote" and the
    quote as replacement: every [u] that is followed by a quote character
    is removed, scanning from the left. *)
Fixpoint re_sub_u (s : string) : string :=
  match s with
  | String a s' =>
      match s' with
      | String b _ =>
          if Ascii.eqb a "u" && (Ascii.eqb b squote || Ascii.eqb b dquote)
          then re_sub_u s'
          else String a (re_sub_u s')
      | EmptyString => s
      end
  | EmptyString => EmptyString
  end.

(** ** Decimal numerals *)

Definition digit_char (d : Z) : ascii := ascii_of_nat (48 + Z.to_nat d).

(** The last [width] decimal digits of [n], most significant first. *)
Fixpoint dec_digits (width : nat) (n : Z) (acc : string) : string :=
  match width with
  | O => acc
  | S w => dec_digits w (n / 10) (String (digit_char (n mod 10)) acc)
  end.

(** [fuel] bounds the number of decimal digits; a double has at most 309
    before and needs at most 324 leading zeros after the point. *)
Definition fuel : nat := 400.

(** For [den <= num]: the largest [k] with [den * 10^k <= num]. *)
Fixpoint log10_down (f : nat) (num den : Z) : Z :=
  match f with
  | O => 0
  | S f' => if (den * 10 <=? num)%Z then (1 + log10_down f' num (den * 10))%Z
            else 0%Z
  end.

(** For [0 < num < den]: the smallest [k >= 1] with [den <= num * 10^k]. *)
Fixpoint log10_up (f : nat) (num den : Z) : Z :=
  match f with
  | O => 0
  | S f' => if (den <=? num * 10)%Z then 1%Z
            else (1 + log10_up f' (num * 10) den)%Z
  end.

(** [floor (log10 (num / den))] for a positive fraction. *)
Definition dec_exponent (num den : Z) : Z :=
  if (den <=? num)%Z then log10_down fuel num den
  else (- log10_up fuel num den)%Z.

(** [str(n)] for [0 <= n]. *)
Definition str_of_Z (n : Z) : string :=
  if (n <=? 0)%Z then "0"
  else dec_digits (Z.to_nat (1 + log10_down fuel n 1)) n EmptyString.

Definition str_of_nat (n : nat) : string := str_of_Z (Z.of_nat n).

(** ** [repr] of a string (Python 2 [str]) *)

Definition hex_char (d : nat) : ascii :=
  if d <? 10 then ascii_of_nat (48 + d) else ascii_of_nat (87 + d).

Definition repr_char (q : ascii) (c : ascii) : string :=
  let n := nat_of_ascii c in
  if Ascii.eqb c q || Ascii.eqb c backslash then String backslash (str1 c)
  else if n =? 9 then String backslash "t"
  else if n =? 10 then String backslash "n"
  else if n =? 13 then String backslash "r"
  else if (n <? 32) || (127 <=? n) then
    String backslash (String "x" (String (hex_char (n / 16))
                                    (str1 (hex_char (n mod 16)))))
  else str1 c.

Fixpoint repr_body (q : ascii) (s : string) : string :=
  match s with
  | EmptyString => EmptyString
  | String c s' => repr_char q c +:+ repr_body q s'
  end.

(** Double quotes are used only when the string holds a single quote and
    no double quote. *)
Definition repr_str (s : string) : string :=
  let q := if contains squote s && negb (contains dquote s)
           then dquote else squote in
  String q (repr_body q s +:+ str1 q).

(** ** Python floats *)

(** [a / b]: division by a zero of either sign raises. *)
Definition truediv (a b : float) : res float :=
  if PrimFloat.eqb b 0%float then Raise ZeroDivisionError
  else Ok (PrimFloat.div a b).

Definition sign_str (s : bool) : string := if s then "-" else "".

(** The finite positive value [m * 2^e] as a fraction. *)
Definition frac_of (m : positive) (e : Z) : Z * Z :=
  if (0 <=? e)%Z then (Z.pos m * 2 ^ e, 1)%Z
  else (Z.pos m, 2 ^ (- e))%Z.

(** [n / d] rounded to the nearest integer, ties to even. *)
Definition round_half_even (n d : Z) : Z :=
  let q := (n / d)%Z in
  match (2 * (n mod d) ?= d)%Z with
  | Lt => q
  | Gt => (q + 1)%Z
  | Eq => if Z.even q then q else (q + 1)%Z
  end.

(** [scale10 (num, den) k] is the fraction [num / den * 10^k]. *)
Definition scale10 (num den k : Z) : Z * Z :=
  if (0 <=? k)%Z then (num * 10 ^ k, den)%Z
  else (num, den * 10 ^ (- k))%Z.

(** [num / den] correctly rounded to [p] significant digits: the integer
    [D] of exactly [p] digits and the decimal exponent [X] of the leading
    digit, [num / den ~ D * 10^(X - p + 1)]. *)
Definition sig_digits (p : Z) (num den : Z) : Z * Z :=
  let X := dec_exponent num den in
  let '(n, d) := scale10 num den (p - 1 - X) in
  let D := round_half_even n d in
  if (D =? 10 ^ p)%Z then (10 ^ (p - 1), X + 1)%Z else (D, X).

Definition rstrip_zeros (s : string) : string := rstrip "0" s.

(** The exponent part of a float in scientific notation: a sign and at
    least two digits. *)
Definition exp_str (X : Z) : string :=
  let a := Z.abs X in
  "e" +:+ (if (X <? 0)%Z then "-" else "+")
      +:+ (if (a <? 10)%Z then "0" else "") +:+ str_of_Z a.

(** Digits [ds] in scientific notation, trailing zeros removed. *)
Definition sci_str (ds : string) (X : Z) : string :=
  let rest := rstrip_zeros (drop 1 ds) in
  take 1 ds +:+ (if String.eqb rest "" then "" else "." +:+ rest)
         +:+ exp_str X.

(** Digits [ds] in positional notation, trailing zeros of the fraction
    removed; [ds] holds more than [X] digits. *)
Definition fixed_str (ds : string) (X : Z) : string :=
  if (X <? 0)%Z then
    "0." +:+ repeat_char "0" (Z.to_nat (- X - 1)) +:+ rstrip_zeros ds
  else
    let k := Z.to_nat (X + 1) in
    let frac := rstrip_zeros (drop k ds) in
    take k ds +:+ (if String.eqb frac "" then "" else "." +:+ frac).

(** ['{:.<prec>n}'.format(x)] for a float [x], in the C locale: the [g]
    presentation, [prec] significant digits ([0] counts as [1]),
    scientific notation when the exponent is below [-4] or not below the
    precision, trailing zeros removed. *)
Definition format_n (prec : nat) (x : float) : string :=
  let p := Z.of_nat (Nat.max prec 1) in
  match Prim2SF x with
  | S754_nan => "nan"
  | S754_infinity s => sign_str s +:+ "inf"
  | S754_zero s => sign_str s +:+ "0"
  | S754_finite s m e =>
      let '(num, den) := frac_of m e in
      let '(D, X) := sig_digits p num den in
      let ds := dec_digits (Z.to_nat p) D EmptyString in
      sign_str s +:+
        (if (X <? -4)%Z || (p <=? X)%Z then sci_str ds X else fixed_str ds X)
  end.

(** ['{:.0f}'.format(x)]: the nearest integer, ties to even, all digits. *)
Definition format_f0 (x : float) : string :=
  match Prim2SF x with
  | S754_nan => "nan"
  | S754_infinity s => sign_str s +:+ "inf"
  | S754_zero s => sign_str s +:+ "0"
  | S754_finite s m e =>
      let '(num, den) := frac_of m e in
      sign_str s +:+ str_of_Z (round_half_even num den)
  end.

(** ** [repr] of a float: the shortest digit string that reads back as the
    same double, and among those the nearest to it. *)

(** The decimals that read back as [m * 2^e] are those between the
    midpoints to its two neighbours, the midpoints included when [m] is
    even.  In units of [2^(e-2)] the value is [4m], the upper midpoint
    [4m + 2] and the lower one [4m - 2], or [4m - 1] when [m] is a power of
    two above the subnormal range (the gap below is half as wide). *)
Definition below_gap (m : positive) (e : Z) : Z :=
  if (Z.pos m =? 2 ^ 52)%Z && (-1074 <? e)%Z then 1%Z else 2%Z.

(** Is [c * 10^s] within the interval, for the value [m * 2^e]? *)
Definition reads_back (m : positive) (e : Z) (c s : Z) : bool :=
  let '(vn, vd) := frac_of 1 (e - 2) in
  let '(cn, cd) := scale10 c 1 s in
  let lo := ((4 * Z.pos m - below_gap m e) * vn * cd)%Z in
  let hi := ((4 * Z.pos m + 2) * vn * cd)%Z in
  let x := (cn * vd)%Z in
  if Z.even (Z.pos m) then (lo <=? x)%Z && (x <=? hi)%Z
  else (lo <? x)%Z && (x <? hi)%Z.

(** The candidate with [p] digits: the better of the value rounded down
    and rounded up at that length, if one of them reads back. *)
Definition shortest_at (m : positive) (e : Z) (X : Z) (p : Z)
  : option (Z * Z) :=
  let '(num, den) := frac_of m e in
  let s := (X - p + 1)%Z in
  let '(n, d) := scale10 num den (- s) in
  let c := (n / d)%Z in
  let r := (n mod d)%Z in
  let down := reads_back m e c s in
  let up := reads_back m e (c + 1) s in
  let pick := fun k : Z =>
    if (k =? 10 ^ p)%Z then Some (10 ^ (p - 1), X + 1)%Z else Some (k, X) in
  if (r =? 0)%Z then pick c
  else if down && up then
    match (2 * r ?= d)%Z with
    | Lt => pick c
    | Gt => pick (c + 1)%Z
    | Eq => pick (if Z.even c then c else (c + 1)%Z)
    end
  else if down then pick c
  else if up then pick (c + 1)%Z
  else None.

Fixpoint shortest_from (m : positive) (e : Z) (X : Z) (p : Z) (n : nat)
  : Z * Z * Z :=
  match n with
  | O => let '(num, den) := frac_of m e in
         let '(D, X') := sig_digits 17 num den in (D, X', 17%Z)
  | S n' =>
      match shortest_at m e X p with
      | Some (D, X') => (D, X', p)
      | None => shortest_from m e X (p + 1) n'
      end
  end.

Definition repr_float (x : float) : string :=
  match Prim2SF x with
  | S754_nan => "nan"
  | S754_infinity s => sign_str s +:+ "inf"
  | S754_zero s => sign_str s +:+ "0.0"
  | S754_finite s m e =>
      let '(num, den) := frac_of m e in
      let '(D, X, p) := shortest_from m e (dec_exponent num den) 1 16 in
      let ds := rstrip_zeros (dec_digits (Z.to_nat p) D EmptyString) in
      sign_str s +:+
        (if (X <? -4)%Z || (16 <=? X)%Z then sci_str ds X
         else if (X <? 0)%Z then fixed_str ds X
         else
           let k := Z.to_nat (X + 1) in
           let ds' := ds +:+ repeat_char "0" (k - String.length ds) in
           take k ds' +:+ "." +:+
             (if String.eqb (drop k ds') "" then "0" else drop k ds'))
  end.

End Py.

(* ================================================================== *)
(** * Data model *)

(** Modelled from the spec: the [Statistics] message of the lint-result
    protocol is declared outside [explanations.py].  The spec gives it an
    identifier field and named numeric summary fields; the fields below are
    the ones the spec and the formatters name, all doubles. *)
Record Stat : Type := {
  stat_id : string;
  stat_mean : float;
  stat_std_dev : float;
  stat_min : float;
  stat_max : float;
  stat_count : float
}.

(** Modelled from the spec: a feature of an example is a tagged value list,
    numeric or string; the tag may be unset ([WhichOneof] returns [None]). *)
Inductive Feature : Type :=
| NoKind
| BytesList (value : list string)
| FloatList (value : list float).

(** Modelled from the spec: an example maps feature names to features. *)
Record Example : Type := {
  features : gmap string Feature
}.

(** Modelled from the spec: a sample holds ordered sequences of strings,
    numbers and [Stat] records, any of them possibly empty, and the
    examples shown by the duplicate-example formatter.  The fields are the
    ones the formatters read. *)
Record LintSample : Type := {
  strings : list string;
  nums : list float;
  stats : list Stat;
  examples : list Example
}.

(** Modelled from the spec: a result holds the warning identifiers and the
    samples, in order. *)
Record LintResult : Type := {
  warnings : list string;
  lint_samples : list LintSample
}.

(** The values [pformat] is applied to: a string, a number, or a sequence
    of those. *)
Inductive scalar : Type :=
| SStr (s : string)
| SNum (x : float).

Inductive pyobj : Type :=
| Scalar (v : scalar)
| Seq (l : list scalar).

(** The value of [getattr(stats, name)] for the six fields of the message.
    The other attributes of the message object (its methods, such as
    [ByteSize], and the special attributes, such as [__class__]) are not
    modelled: for such a name the code goes on with the attribute and
    fails when it is formatted or converted, where this definition gives
    [AttributeError], as for a name the object does not have.  The
    properties below are stated for names that are fields only. *)
Definition getattr (st : Stat) (name : string) : res scalar :=
  if String.eqb name "id" then Ok (SStr (stat_id st))
  else if String.eqb name "mean" then Ok (SNum (stat_mean st))
  else if String.eqb name "std_dev" then Ok (SNum (stat_std_dev st))
  else if String.eqb name "min" then Ok (SNum (stat_min st))
  else if String.eqb name "max" then Ok (SNum (stat_max st))
  else if String.eqb name "count" then Ok (SNum (stat_count st))
  else Raise AttributeError.

(** [xs[0]] *)
Definition item0 {A : Type} (xs : list A) : res A :=
  match xs with
  | x :: _ => Ok x
  | [] => Raise IndexError
  end.

(* ================================================================== *)
(** * The module's constants and format strings *)

Definition MAX_WIDTH : nat := 80.
Definition MAX_LEN : nat := 30.
Definition FLAG_PREAMBLE : string := "Flagged features:".
Definition FLAG_SAMPS_PREAMBLE : string :=
  "Flagged features (and sample values):".
Definition LI (a : string) : string := "* " +:+ a.
Definition LI_SAMP (a b : string) : string := LI a +:+ ": " +:+ b.
Definition COLSEP : string := " | ".
Definition BORDER_SZ : nat := String.length ("| " +:+ " " +:+ " |").

(** A number put through a format field with presentation [n]; a string
    there is a [ValueError]. *)
Definition format_spec_n (prec : nat) (v : scalar) : res string :=
  match v with
  | SNum x => Ok (Py.format_n prec x)
  | SStr _ => Raise ValueError
  end.

Definition PCT_FMT (x : float) : string := Py.format_n 3 x +:+ "%".

(** [ULL_WFMT.format(w, *args)]: five fields, so four further arguments
    are needed; more are ignored. *)
Definition ULL_WFMT (w : string) (args : list string) : res string :=
  match args with
  | a :: b :: c :: d :: _ =>
      Ok (LI w +:+ ": " +:+ a +:+ " had length " +:+ b +:+ " but " +:+ c
            +:+ " had " +:+ d +:+ ".")
  | _ => Raise IndexError
  end.

Definition NFNR_PREAMBLE (mean std_dev : float) : string :=
  "A 'typical' numeric feature in the dataset has mean "
    +:+ Py.format_n 3 mean +:+ " and std dev " +:+ Py.format_n 5 std_dev
    +:+ " but".
Definition NFNR_WFMT (a b : string) : string := LI a +:+ " had " +:+ b.
Definition NFNR_STATFMT (name : string) (v : scalar) : res string :=
  let! vs := format_spec_n 5 v in
  Ok (name +:+ " = " +:+ vs).
Definition DD_PREAMBLE (a b : string) : string :=
  "Found " +:+ a +:+ " exact duplicate examples, " +:+ b
    +:+ " of which are shown below.".
Definition DD_MAX_VAL_LEN : nat := 20.
Definition DD_MAX_COLS : nat := 30.
Definition USD_PREAMBLE : string :=
  "Flagged features and prevalence of uncommon sign(s):".
Definition USD_WFMT (a b : string) : string :=
  a +:+ " occurred " +:+ b +:+ " of the time".
Definition TDD_PREAMBLE : string := "Flagged features and outlying extrema:".
Definition TDD_WFMT (a : string) (x : float) : string :=
  a +:+ " value of " +:+ Py.format_n 3 x.

(* ================================================================== *)
(** * [pformat] *)

Definition repr_scalar (v : scalar) : string :=
  match v with
  | SStr s => Py.repr_str s
  | SNum x => Py.repr_float x
  end.

(** [pprint.pformat(obj)] for an object that is not a number, as the
    [repr] of the object on one line.  This is what [pprint] writes under
    Python 2, and under every version when the [repr] is not longer than
    the default width of [pprint], 80 characters; Python 3.5 and later
    wrap a longer string over several lines, which is not modelled.  The
    only sequences that reach [pformat] are repeated fields of a
    message, written as a list. *)
Definition pprint_pformat (obj : pyobj) : string :=
  match obj with
  | Scalar v => repr_scalar v
  | Seq l => "[" +:+ Py.join ", " (map repr_scalar l) +:+ "]"
  end.

(** [obj[0]] when [obj] has a length and that length is one: a
    one-element sequence gives its element, a one-character string
    itself. *)
Definition unwrap_single (obj : pyobj) : pyobj :=
  match obj with
  | Seq [v] => Scalar v
  | _ => obj
  end.

Definition pformat (obj : pyobj) (max_len : nat) (quote : bool) : string :=
  let obj := unwrap_single obj in
  let pstr :=
    match obj with
    | Scalar (SNum x) => Py.format_n 4 x
    | _ => pprint_pformat obj
    end in
  let pstr := Py.re_sub_u pstr in
  let pstr := if quote then pstr
              else Py.strip Py.dquote (Py.strip Py.squote pstr) in
  Py.cram pstr max_len.

Definition pformat_str (s : string) (quote : bool) : string :=
  pformat (Scalar (SStr s)) MAX_LEN quote.

(* ================================================================== *)
(** * The formatters *)

(** [sample.strings or sample.nums] *)
Definition samp_vals_of (sample : LintSample) : list scalar :=
  match strings sample with
  | [] => map SNum (nums sample)
  | ss => map SStr ss
  end.

Definition _format_warning_sample_pair (warning : string)
    (sample : LintSample) (quote_vals : bool) : string :=
  let wstr := pformat_str warning false in
  let samp_vals := samp_vals_of sample in
  let samp_str :=
    Py.join ", " (map (fun v => pformat (Scalar v) MAX_LEN quote_vals)
                      samp_vals) in
  LI_SAMP wstr (match samp_vals with [] => wstr | _ => samp_str end).

(** The loop over [zip(result.warnings, samples)] that skips the
    suppressed warnings, shared by the formatters below. *)
Definition for_warnings (suppress : gset string)
    (body : string -> LintSample -> res string)
    (ws : list string) (samples : list LintSample) : res (list string) :=
  for_lines (fun '(warning, samp) =>
               if bool_decide (warning ∈ suppress) then Ok []
               else let! l := body warning samp in Ok [l])
            (zip ws samples).

Definition _format_warnings (result : LintResult) (suppress : gset string)
    (max_width : nat) : res (list string) :=
  match lint_samples result with
  | _ :: _ =>
      let! body :=
        for_warnings suppress
          (fun warning samp =>
             Ok (_format_warning_sample_pair warning samp true))
          (warnings result) (lint_samples result) in
      Ok (FLAG_SAMPS_PREAMBLE :: body)
  | [] =>
      let wstrs := map (fun w => LI (pformat_str w true)) (warnings result) in
      Ok [FLAG_PREAMBLE; Py.join Py.NL wstrs]
  end.

Definition _format_warnings_de (result : LintResult) (suppress : gset string)
    (max_width : nat) : res (list string) :=
  let! body :=
    for_warnings suppress
      (fun warning samp =>
         Ok (_format_warning_sample_pair warning samp false))
      (warnings result) (lint_samples result) in
  Ok (FLAG_SAMPS_PREAMBLE :: body).

(** [sorted({bucket.min, bucket.max})] for bounds that are numbers: equal
    bounds are one element.  When a bound is NaN the code returns the two
    bounds in the iteration order of the set; this definition then gives
    them as the sample holds them. *)
Definition sorted_bounds (lo hi : float) : list float :=
  if PrimFloat.eqb lo hi then [lo]
  else if PrimFloat.ltb hi lo then [hi; lo]
  else [lo; hi].

(** [sum(map(list, zip(xs, ys)), [])] *)
Fixpoint interleave (xs ys : list string) : list string :=
  match xs, ys with
  | x :: xs', y :: ys' => x :: y :: interleave xs' ys'
  | _, _ => []
  end.

Definition llo_line (warning : string) (sample : LintSample) : res string :=
  let! n_egs := item0 (nums sample) in
  let! bucket_pcts :=
    map_res (fun bucket =>
               let! r := Py.truediv (stat_count bucket) n_egs in
               Ok (PCT_FMT (PrimFloat.mul r 100)))
            (stats sample) in
  let bucket_bounds :=
    map (fun bucket =>
           Py.join " to "
             (map Py.format_f0
                  (sorted_bounds (stat_min bucket) (stat_max bucket))))
        (stats sample) in
  ULL_WFMT (pformat_str warning false) (interleave bucket_pcts bucket_bounds).

Definition _format_warnings_llo (result : LintResult) (suppress : gset string)
    (max_width : nat) : res (list string) :=
  let! body :=
    for_warnings suppress llo_line (warnings result) (lint_samples result) in
  Ok (FLAG_PREAMBLE :: body).

Definition _format_warnings_dee (result : LintResult) (suppress : gset string)
    (max_width : nat) : res (list string) :=
  let! w := item0 (warnings result) in
  Ok ["Found " +:+ w +:+ " empty examples."].

(** [a, b = s.split(sep)]: anything but two fields is a [ValueError]. *)
Definition unpack2 (fields : list string) : res (string * string) :=
  match fields with
  | [a; b] => Ok (a, b)
  | _ => Raise ValueError
  end.

Definition nfnr_lines (suppress : gset string)
    (ws : string * LintSample) : res (list string) :=
  let '(warning, sample) := ws in
  let! fields := unpack2 (Py.split ":" warning) in
  let '(warned_feature, warning_stats) := fields in
  let warned_stats := Py.split "," warning_stats in
  if bool_decide (warned_feature ∈ suppress) then Ok []
  else
    let! stats := item0 (stats sample) in
    let! stats_warnings :=
      map_res (fun warned_stat =>
                 let! v := getattr stats warned_stat in
                 NFNR_STATFMT warned_stat v)
              warned_stats in
    Ok [NFNR_WFMT (pformat_str warned_feature false)
                  (Py.join ", " stats_warnings)].

Definition _format_warnings_nfnr (result : LintResult)
    (suppress : gset string) (max_width : nat) : res (list string) :=
  let! s0 := item0 (lint_samples result) in
  let! ds_stats := item0 (stats s0) in
  let! body :=
    for_lines (nfnr_lines suppress)
              (zip (warnings result) (tail (lint_samples result))) in
  Ok (NFNR_PREAMBLE (stat_mean ds_stats) (stat_std_dev ds_stats) :: body).

(** The sign buckets of one warning of the uncommon-sign formatter. *)
Definition dus_wstr (num_unique_vals : float) (sc : string * float)
  : res string :=
  let '(sign_str, sign_count) := sc in
  let! r := Py.truediv sign_count num_unique_vals in
  let pct_w_sign := PrimFloat.mul r 100 in
  let pct_str :=
    if PrimFloat.leb 1 pct_w_sign then PCT_FMT pct_w_sign else "< 1%" in
  Ok (USD_WFMT sign_str pct_str).

Definition dus_line (warning : string) (sample : LintSample) : res string :=
  let! num_unique_vals := item0 (nums sample) in
  let! wstrs :=
    map_res (dus_wstr num_unique_vals)
            (zip (strings sample) (tail (nums sample))) in
  Ok (LI_SAMP (pformat_str warning false) (Py.join ", " wstrs)).

Definition _format_warnings_dus (result : LintResult) (suppress : gset string)
    (max_width : nat) : res (list string) :=
  let! body :=
    for_warnings suppress dus_line (warnings result) (lint_samples result) in
  Ok (USD_PREAMBLE :: body).

(** [float(ev)] for an attribute of a [Stat].  The one string attribute is
    the identifier, reached only under the name [id], which the identifier
    then contains: it is no numeral. *)
Definition to_float (v : scalar) : res float :=
  match v with
  | SNum x => Ok x
  | SStr _ => Raise ValueError
  end.

Definition don_line (warning : string) (sample : LintSample) : res string :=
  let! stats := item0 (stats sample) in
  let extremes := Py.split "," (stat_id stats) in
  let! extremal := map_res (getattr stats) extremes in
  let! wstrs :=
    map_res (fun '(e, ev) => let! x := to_float ev in Ok (TDD_WFMT e x))
            (zip extremes extremal) in
  Ok (LI_SAMP (pformat_str warning false) (Py.join ", " wstrs)).

Definition _format_warnings_don (result : LintResult) (suppress : gset string)
    (max_width : nat) : res (list string) :=
  let! body :=
    for_warnings suppress don_line (warnings result) (lint_samples result) in
  Ok (TDD_PREAMBLE :: body).

Definition _format_warnings_iaf (result : LintResult) (suppress : gset string)
    (max_width : nat) : res (list string) :=
  let wstrs := map (fun warning => LI (pformat_str warning false))
                   (warnings result) in
  Ok [FLAG_PREAMBLE; Py.join Py.NL wstrs].

(** ** The duplicate-example formatter *)

(** [sorted(names)] for strings: by character code, lexicographically. *)
Definition sorted (names : list string) : list string :=
  merge_sort (fun a b => Is_true (String.leb a b)) names.

(** [sorted(set(f for eg in egs for f in eg.features.feature))[:DD_MAX_COLS]] *)
Definition dd_cols (egs : list Example) : list string :=
  take DD_MAX_COLS
       (sorted (elements (⋃ (map (fun eg => dom (features eg)) egs)))).

(** The cell of feature [col] of one example: [None] on the three paths
    that append [''] and [continue], the pretty-printed values otherwise. *)
Definition dd_cell (eg : Example) (col : string) : option string :=
  match features eg !! col with
  | None => None
  | Some NoKind => None
  | Some (BytesList vals) =>
      match vals with
      | [] => None
      | _ => Some (pformat (Seq (map SStr vals)) DD_MAX_VAL_LEN true)
      end
  | Some (FloatList vals) =>
      match vals with
      | [] => None
      | _ => Some (pformat (Seq (map SNum vals)) DD_MAX_VAL_LEN true)
      end
  end.

(** The two dictionaries the table is built from.  Their keys are the
    columns, so the lookups of the source cannot fail. *)
Record dd_state : Type := {
  col_vals : gmap string (list string);
  col_widths : gmap string nat
}.

Definition dd_init (cols : list string) : dd_state :=
  {| col_vals := list_to_map (map (fun col => (col, [])) cols);
     col_widths :=
       list_to_map
         (map (fun col =>
                 (col, Nat.min (String.length col)
                               (DD_MAX_VAL_LEN - BORDER_SZ)))
              cols) |}.

(** The body of [for col in cols] for one example. *)
Definition dd_fill_cell (eg : Example) (st : dd_state) (col : string)
  : dd_state :=
  match dd_cell eg col with
  | None =>
      {| col_vals := <[col := (col_vals st !!! col) ++ [""]]> (col_vals st);
         col_widths := col_widths st |}
  | Some val_str =>
      {| col_vals :=
           <[col := (col_vals st !!! col) ++ [val_str]]> (col_vals st);
         col_widths :=
           <[col := Nat.max (col_widths st !!! col)
                            (Nat.min (String.length val_str) DD_MAX_VAL_LEN)]>
             (col_widths st) |}
  end.

Definition dd_fill (egs : list Example) (cols : list string) : dd_state :=
  fold_left (fun st eg => fold_left (dd_fill_cell eg) cols st)
            egs (dd_init cols).

(** [col_groups[-1].append(col)] *)
Fixpoint append_last (col_groups : list (list string)) (col : string)
  : list (list string) :=
  match col_groups with
  | [] => []
  | [g] => [g ++ [col]]
  | g :: gs => g :: append_last gs col
  end.

(** The body of the loop that packs the columns into groups; the state is
    [(col_groups, tot_width)]. *)
Definition dd_pack_col (max_width : nat) (widths : gmap string nat)
    (st : list (list string) * nat) (col : string)
  : list (list string) * nat :=
  let '(col_groups, tot_width) := st in
  let colwidth := (widths !!! col) + BORDER_SZ in
  if max_width <=? tot_width + colwidth then (col_groups ++ [[col]], 0)
  else (append_last col_groups col, tot_width + colwidth).

Definition dd_col_groups (max_width : nat) (widths : gmap string nat)
    (cols : list string) : list (list string) :=
  fst (fold_left (dd_pack_col max_width widths) cols ([[]], 0)).

(** [borders.format(x)] for group number [i] (from 1) of [n]. *)
Definition borders (i n : nat) (x : string) : string :=
  if i =? 1 then "| " +:+ x +:+ " " +:+ (if n =? 1 then "|" else "")
  else if i <? n then " " +:+ x +:+ " "
  else " " +:+ x +:+ " |".

(** [cg_lines] of one column group. *)
Definition dd_cg_lines (st : dd_state) (n_egs n_groups : nat)
    (i : nat) (col_group : list string) : list string :=
  let heading :=
    borders i n_groups
      (Py.join COLSEP
         (map (fun c => Py.center (Py.cram c (col_widths st !!! c))
                                  (col_widths st !!! c))
              col_group)) in
  let hrule := Py.repeat_char "-" (String.length heading) in
  [hrule; heading; hrule]
    ++ map (fun j =>
              borders i n_groups
                (Py.join COLSEP
                   (map (fun c => Py.center ((col_vals st !!! c) !!! j)
                                            (col_widths st !!! c))
                        col_group)))
           (seq 0 n_egs)
    ++ [hrule].

(** The lines of every column group of the table, in order. *)
Definition dd_table (egs : list Example) (max_width : nat)
  : list (list string) :=
  let cols := dd_cols egs in
  let st := dd_fill egs cols in
  let col_groups := dd_col_groups max_width (col_widths st) cols in
  imap (fun i => dd_cg_lines st (length egs) (length col_groups) (S i))
       col_groups.

Definition _format_warnings_dd (result : LintResult) (suppress : gset string)
    (max_width : nat) : res (list string) :=
  let! s0 := item0 (lint_samples result) in
  let egs := examples s0 in
  let! w0 := item0 (warnings result) in
  let col_group_strs := map (Py.join Py.NL) (dd_table egs max_width) in
  Ok [DD_PREAMBLE w0 (Py.str_of_nat (length egs));
      Py.join (Py.NL +:+ Py.NL) col_group_strs].

(* ================================================================== *)
(** * Auxiliary definitions and concrete inputs *)

(** The number of occurrences of [c] in [s]. *)
Fixpoint count_char (c : ascii) (s : string) : nat :=
  match s with
  | EmptyString => 0
  | String a s' => (if Ascii.eqb a c then 1 else 0) + count_char c s'
  end.

(** A sample without any value, a [Stat] of a whole dataset, and the
    sample that carries one [Stat]. *)
Definition empty_sample : LintSample :=
  {| strings := []; nums := []; stats := []; examples := [] |}.

Definition typical_stat : Stat :=
  {| stat_id := ""; stat_mean := 2%float; stat_std_dev := 1%float;
     stat_min := 0%float; stat_max := 4%float; stat_count := 10%float |}.

(** A [Stat] whose identifier lists its own name between two extremes. *)
Definition id_named_stat : Stat :=
  {| stat_id := "min,id,max"; stat_mean := 2%float; stat_std_dev := 1%float;
     stat_min := 0%float; stat_max := 4%float; stat_count := 10%float |}.

Definition stats_sample (st : Stat) : LintSample :=
  {| strings := []; nums := []; stats := [st]; examples := [] |}.

(** The [Stat] of a feature with mean 1.5 and standard deviation 0.25. *)
Definition height_stat : Stat :=
  {| stat_id := ""; stat_mean := 1.5%float; stat_std_dev := 0.25%float;
     stat_min := 1%float; stat_max := 2%float; stat_count := 8%float |}.

(** One example with seven features, each holding one string of seventeen
    characters. *)
Definition dup_value : string := "aaaaaaaaaaaaaaaaa".

Definition dup_example : Example :=
  {| features :=
       list_to_map
         (map (fun name => (name, BytesList [dup_value]))
              ["f1"; "f2"; "f3"; "f4"; "f5"; "f6"; "f7"]) |}.

Definition dup_result : LintResult :=
  {| warnings := ["2"];
     lint_samples :=
       [ {| strings := []; nums := []; stats := [];
            examples := [dup_example] |} ] |}.

(** A sample of the uncommon-sign detector whose count of unique values
    is zero, and one of the list-length detector with no examples. *)
Definition zero_sign_sample : LintSample :=
  {| strings := ["negative"]; nums := [0%float; 1%float];
     stats := []; examples := [] |}.

Definition zero_length_sample : LintSample :=
  {| strings := []; nums := [0%float];
     stats := [ {| stat_id := ""; stat_mean := 0; stat_std_dev := 0;
                   stat_min := 1; stat_max := 1; stat_count := 0 |};
                {| stat_id := ""; stat_mean := 0; stat_std_dev := 0;
                   stat_min := 2; stat_max := 3; stat_count := 0 |} ];
     examples := [] |}.

(** Ordinary samples of the two detectors: ten examples in two length
    buckets, nine of length 1 and one of length 2 to 3, and one negative
    value and two zeros among 200 unique values. *)
Definition common_bucket : Stat :=
  {| stat_id := ""; stat_mean := 0; stat_std_dev := 0;
     stat_min := 1; stat_max := 1; stat_count := 9 |}.

Definition rare_bucket : Stat :=
  {| stat_id := ""; stat_mean := 0; stat_std_dev := 0;
     stat_min := 2; stat_max := 3; stat_count := 1 |}.

Definition ordinary_length_sample : LintSample :=
  {| strings := []; nums := [10%float];
     stats := [common_bucket; rare_bucket]; examples := [] |}.

Definition ordinary_sign_sample : LintSample :=
  {| strings := ["negative"; "zero"];
     nums := [200%float; 1%float; 2%float];
     stats := []; examples := [] |}.

(** One flagged sign seen once among 200 unique values (0.5%), and once
    among 100 (1.0%). *)
Definition half_percent_result : LintResult :=
  {| warnings := ["f"];
     lint_samples :=
       [ {| strings := ["negative"]; nums := [200%float; 1%float];
            stats := []; examples := [] |} ] |}.

Definition one_percent_result : LintResult :=
  {| warnings := ["f"];
     lint_samples :=
       [ {| strings := ["negative"]; nums := [100%float; 1%float];
            stats := []; examples := [] |} ] |}.

(** ** Invariants of the duplicate-example table *)

(** The state of the table fits: a column is at least as wide as its
    name, up to the bound on names, and as each of its cells. *)
Definition dd_fits (cols : list string) (st : dd_state) : Prop :=
  (forall c, c ∈ cols ->
     Nat.min (String.length c) (DD_MAX_VAL_LEN - BORDER_SZ)
     <= col_widths st !!! c)
  /\ (forall c, Forall (fun v => String.length v <= col_widths st !!! c)
                       (col_vals st !!! c)).

(** The width the packing loop counts for a group. *)
Definition group_width (widths : gmap string nat) (g : list string) : nat :=
  sum_list_with (fun c => (widths !!! c) + BORDER_SZ) g.

(** What the packing loop keeps true of its first group: it holds columns
    only, its counted width is below [max_width] once it holds a column,
    and [tot_width] is that width as long as it is the only group. *)
Definition pack_inv (max_width : nat) (widths : gmap string nat)
    (cols : list string) (st : list (list string) * nat) : Prop :=
  exists g1 rest,
    st.1 = g1 :: rest
    /\ Forall (fun c => c ∈ cols) g1
    /\ (g1 = [] \/ group_width widths g1 < max_width)
    /\ (rest = [] -> st.2 = group_width widths g1).

(** The constants of the table, folded. *)
Ltac dd_consts :=
  change (DD_MAX_VAL_LEN - BORDER_SZ) with 15 in *;
  change DD_MAX_VAL_LEN with 20 in *;
  change BORDER_SZ with 5 in *.

(** ** Character classes and field names *)

(** Every character of [s] satisfies [P]. *)
Fixpoint all_chars (P : ascii -> bool) (s : string) : bool :=
  match s with
  | EmptyString => true
  | String a s' => P a && all_chars P s'
  end.

Definition not_newline (c : ascii) : bool := negb (Ascii.eqb c Py.newline).

(** The characters of a printed number: digits, the point, the exponent
    mark, the signs, and the letters of [nan] and [inf]. *)
Definition num_char (c : ascii) : bool :=
  Py.contains c "0123456789.e+-naif".

(** The default [width] of [pprint.pformat].  A string whose [repr] is
    not longer is written as that [repr] by every version of [pprint]. *)
Definition PPRINT_WIDTH : nat := 80.

Definition pprint_fits (s : string) : Prop :=
  String.length (Py.repr_str s) <= PPRINT_WIDTH.

(** A bucket with its two bounds the other way round. *)
Definition swap_bounds (b : Stat) : Stat :=
  {| stat_id := stat_id b; stat_mean := stat_mean b;
     stat_std_dev := stat_std_dev b;
     stat_min := stat_max b; stat_max := stat_min b;
     stat_count := stat_count b |}.

(** A bound that is a number, and not the negative zero (which equals
    zero and is printed with its sign). *)
Definition plain_bound (x : float) : Prop :=
  PrimFloat.is_nan x = false /\ x <> (-0)%float.

Definition plain_bucket (b : Stat) : Prop :=
  plain_bound (stat_min b) /\ plain_bound (stat_max b).

(** The names of the numeric fields of a [Stat]. *)
Definition numeric_field (name : string) : bool :=
  bool_decide (name ∈ ["mean"; "std_dev"; "min"; "max"; "count"]).

(** ** Further invariants of the duplicate-example table *)

(** No column is wider than the bound on the cells. *)
Definition dd_narrow (st : dd_state) : Prop :=
  forall c, col_widths st !!! c <= DD_MAX_VAL_LEN.

(** What the packing loop keeps true of every group: the columns after
    the first of a group have a counted width below [max_width], and
    [tot_width] is the counted width of the last group, without its first
    column unless it is the only group. *)
Definition pack_tail_inv (max_width : nat) (widths : gmap string nat)
    (st : list (list string) * nat) : Prop :=
  Forall (fun g => tail g = [] \/ group_width widths (tail g) < max_width)
         st.1
  /\ exists gs g,
       st.1 = gs ++ [g]
       /\ st.2 = group_width widths (match gs with [] => g | _ => tail g end)
       /\ (gs <> [] -> g <> []).

(* ================================================================== *)
(** * Properties *)

(** ** The result monad and the loops *)

Lemma for_lines_app {A : Type} (body : A -> res (list string))
    (xs ys : list A) :
  for_lines body (xs ++ ys) =
  let! l1 := for_lines body xs in
  let! l2 := for_lines body ys in
  Ok (l1 ++ l2).
Proof.
  induction xs as [|x xs IH]; simpl.
  - destruct (for_lines body ys); reflexivity.
  - destruct (body x) as [l|e]; simpl; [|reflexivity].
    rewrite IH.
    destruct (for_lines body xs) as [l1|e]; simpl; [|reflexivity].
    destruct (for_lines body ys) as [l2|e]; simpl; [|reflexivity].
    by rewrite app_assoc.
Qed.

Lemma zip_take_length {A B : Type} (xs : list A) (ys : list B) :
  zip (take (length ys) xs) ys = zip xs ys.
Proof.
  revert ys; induction xs as [|x xs IH]; intros [|y ys]; simpl; try done.
  by rewrite IH.
Qed.

Lemma zip_app_same_length {A B : Type} (xs1 xs2 : list A) (ys1 ys2 : list B) :
  length xs1 = length ys1 ->
  zip (xs1 ++ xs2) (ys1 ++ ys2) = zip xs1 ys1 ++ zip xs2 ys2.
Proof.
  revert ys1; induction xs1 as [|x xs1 IH]; intros [|y ys1] Hlen;
    simpl in *; try done.
  f_equal. apply IH. lia.
Qed.

(** The suppressed warnings add nothing to the body built by
    [for_warnings]: the loop gives what it gives on the pairs that are not
    suppressed. *)
Lemma for_warnings_skips_suppressed (suppress : gset string)
    (body : string -> LintSample -> res string)
    (ws : list string) (samples : list LintSample) :
  for_warnings suppress body ws samples =
  map_res (fun '(w, s) => body w s)
          (filter (fun p => p.1 ∉ suppress) (zip ws samples)).
Proof.
  unfold for_warnings.
  induction (zip ws samples) as [|[w s] ps IH]; [reflexivity|].
  simpl for_lines. rewrite IH. clear IH.
  rewrite filter_cons. simpl.
  destruct (decide (w ∉ suppress)) as [Hn|Hin].
  - rewrite bool_decide_eq_false_2 by done. simpl.
    destruct (body w s) as [l|e]; simpl; [|reflexivity].
    destruct (map_res _ _); reflexivity.
  - rewrite bool_decide_eq_true_2 by (by apply dec_stable).
    simpl. destruct (map_res _ _); reflexivity.
Qed.

(** When every warning is suppressed the body is empty. *)
Lemma for_warnings_all_suppressed (suppress : gset string)
    (body : string -> LintSample -> res string)
    (ws : list string) (samples : list LintSample) :
  Forall (fun w => w ∈ suppress) ws ->
  for_warnings suppress body ws samples = Ok [].
Proof.
  intros Hall. rewrite for_warnings_skips_suppressed.
  replace (filter _ (zip ws samples)) with (@nil (string * LintSample));
    [reflexivity|].
  symmetry. revert samples.
  induction Hall as [|w ws Hw _ IH]; intros [|s samples]; simpl; try done.
  rewrite filter_cons. simpl.
  destruct (decide (w ∉ suppress)); [done | apply IH].
Qed.

(** ** Suppression *)

(** X2: the formatters that loop over warning and sample pairs print the
    preamble alone when every warning is suppressed, whatever the samples
    hold: the sample of a suppressed warning is never read. *)
Lemma paired_formatters_all_suppressed (result : LintResult)
    (suppress : gset string) (max_width : nat) :
  Forall (fun w => w ∈ suppress) (warnings result) ->
  lint_samples result <> [] ->
  _format_warnings result suppress max_width = Ok [FLAG_SAMPS_PREAMBLE]
  /\ _format_warnings_de result suppress max_width = Ok [FLAG_SAMPS_PREAMBLE]
  /\ _format_warnings_llo result suppress max_width = Ok [FLAG_PREAMBLE]
  /\ _format_warnings_dus result suppress max_width = Ok [USD_PREAMBLE]
  /\ _format_warnings_don result suppress max_width = Ok [TDD_PREAMBLE].
Proof.
  intros Hall Hne.
  unfold _format_warnings, _format_warnings_de, _format_warnings_llo,
    _format_warnings_dus, _format_warnings_don.
  rewrite !for_warnings_all_suppressed by done.
  destruct (lint_samples result); [done|]. by repeat split.
Qed.

(** The branch of the generic formatter without samples and the
    int-as-float formatter never look at the suppression set. *)
Lemma unpaired_formatters_ignore_suppress (result : LintResult)
    (suppress : gset string) (max_width : nat) :
  lint_samples result = [] ->
  _format_warnings result suppress max_width
    = _format_warnings result ∅ max_width
  /\ _format_warnings_iaf result suppress max_width
    = _format_warnings_iaf result ∅ max_width.
Proof.
  intros Hs. unfold _format_warnings, _format_warnings_iaf.
  by rewrite Hs.
Qed.

(** C1: every formatter leaves the suppressed warnings out of its body.
    The code does not: for the result with the single warning [a], no
    samples, and [a] suppressed, the generic formatter and the int-as-float
    formatter both print the bullet of [a] after the preamble. *)
Theorem suppressed_warning_still_listed :
  let result := {| warnings := ["a"]; lint_samples := [] |} in
  let suppress : gset string := {["a"]} in
  "a" ∈ suppress
  /\ _format_warnings result suppress MAX_WIDTH
     = Ok [FLAG_PREAMBLE; "* 'a'"]
  /\ _format_warnings_iaf result suppress MAX_WIDTH
     = Ok [FLAG_PREAMBLE; "* a"].
Proof.
  simpl. split; [set_solver|]. split; vm_compute; reflexivity.
Qed.

(** ** The value pretty-printer *)

(** A one-element sequence is printed as its element. *)
Lemma pformat_unwraps_single (v : scalar) (max_len : nat) (quote : bool) :
  pformat (Seq [v]) max_len quote = pformat (Scalar v) max_len quote.
Proof.
  unfold pformat. simpl unwrap_single.
  destruct v as [s|x]; reflexivity.
Qed.

(** C4 (as stated): with its default arguments [pformat] prints the
    sequence holding the string 5 as the bare digit.  It does not: the
    default is [quote=True], and the quotes of the representation stay. *)
Lemma pformat_default_keeps_quotes :
  pformat (Seq [SStr "5"]) MAX_LEN true <> "5".
Proof. vm_compute. discriminate. Qed.

(** C4 (amended): the one-element sequence holding the string 5 is
    unwrapped, without brackets: with the default arguments it prints in
    single quotes, and with [quote=False] as the bare digit; the number
    3.14159 prints with four significant digits, as 3.142. *)
Theorem pformat_single_and_number :
  pformat (Seq [SStr "5"]) MAX_LEN true = "'5'"
  /\ pformat (Seq [SStr "5"]) MAX_LEN false = "5"
  /\ pformat (Scalar (SNum 3.14159%float)) MAX_LEN true = "3.142"
  /\ pformat (Seq [SNum 3.14159%float]) MAX_LEN true = "3.142".
Proof. repeat split; vm_compute; reflexivity. Qed.

(** ** The generic formatter *)

(** C9: for the warnings [a] and [b], no samples and nothing suppressed,
    the generic formatter returns the preamble and one block of two
    bullets, [a] then [b]. *)
Theorem format_warnings_two_bullets (max_width : nat) :
  _format_warnings {| warnings := ["a"; "b"]; lint_samples := [] |}
                   ∅ max_width
  = Ok [FLAG_PREAMBLE; Py.join Py.NL [LI "'a'"; LI "'b'"]]
  /\ Py.split Py.newline (Py.join Py.NL [LI "'a'"; LI "'b'"])
     = ["* 'a'"; "* 'b'"].
Proof. split; vm_compute; reflexivity. Qed.

(** ** The duplicate-example table *)

Lemma dd_cg_lines_length (st : dd_state) (n_egs n_groups i : nat)
    (col_group : list string) :
  length (dd_cg_lines st n_egs n_groups i col_group) = n_egs + 4.
Proof.
  unfold dd_cg_lines. cbv zeta.
  rewrite !length_app, length_map, length_seq. simpl. lia.
Qed.

(** Every column group of the table is a list of one item per example,
    after a rule, the heading and a rule, and before the closing rule. *)
Lemma dd_table_rows (egs : list Example) (max_width : nat) :
  Forall (fun cg_lines => length cg_lines = length egs + 4)
         (dd_table egs max_width).
Proof.
  unfold dd_table. cbv zeta. apply Forall_lookup_2. intros i cg Hi.
  rewrite list_lookup_imap in Hi.
  destruct (_ !! i) as [g|]; simpl in Hi; [|discriminate].
  injection Hi as <-. apply dd_cg_lines_length.
Qed.

(** The first column a group starts with is not counted in [tot_width]:
    the loop resets it to [0], not to the width of that column. *)
Lemma dd_pack_col_new_group (max_width : nat) (widths : gmap string nat)
    (col_groups : list (list string)) (tot_width : nat) (col : string) :
  max_width <= tot_width + ((widths !!! col) + BORDER_SZ) ->
  dd_pack_col max_width widths (col_groups, tot_width) col
  = (col_groups ++ [[col]], 0).
Proof.
  intros H. unfold dd_pack_col.
  destruct (Nat.leb_spec max_width (tot_width + ((widths !!! col) + BORDER_SZ)));
    [reflexivity | lia].
Qed.

(** C2: when every value pretty-prints to fewer than 20 characters, each
    column group has N data rows besides its rules and heading, and no
    line is wider than [max_width].  The rows are as claimed, the width is
    not: for one example with seven features whose values print with 19
    characters, and the default width 80, the second column group holds
    four columns and its five lines are 88 characters wide. *)
Theorem dd_table_line_wider_than_max_width :
  String.length (pformat (Seq [SStr dup_value]) DD_MAX_VAL_LEN true) = 19
  /\ map (map String.length) (dd_table [dup_example] MAX_WIDTH)
     = [[66; 66; 66; 66; 66]; [88; 88; 88; 88; 88]]
  /\ exists preamble table,
       _format_warnings_dd dup_result ∅ MAX_WIDTH = Ok [preamble; table]
       /\ map String.length (Py.split Py.newline table)
          = [66; 66; 66; 66; 66; 0; 88; 88; 88; 88; 88].
Proof.
  split; [vm_compute; reflexivity|].
  split; [vm_compute; reflexivity|].
  eexists _, _. split; vm_compute; reflexivity.
Qed.

(** ** Widths in the duplicate-example table *)

Lemma str_length_app (s t : string) :
  String.length (s +:+ t) = String.length s + String.length t.
Proof. induction s as [|a s IH]; simpl; [done | by rewrite IH]. Qed.

Lemma spaces_length (n : nat) : String.length (Py.spaces n) = n.
Proof. induction n as [|n IH]; simpl; [done | by rewrite IH]. Qed.

Lemma repeat_char_length (c : ascii) (n : nat) :
  String.length (Py.repeat_char c n) = n.
Proof. induction n as [|n IH]; simpl; [done | by rewrite IH]. Qed.

Lemma take_length (n : nat) (s : string) :
  String.length (Py.take n s) = Nat.min n (String.length s).
Proof.
  revert s; induction n as [|n IH]; intros [|a s]; simpl; try done.
  by rewrite IH.
Qed.

Lemma drop_length (n : nat) (s : string) :
  String.length (Py.drop n s) = String.length s - n.
Proof.
  revert s; induction n as [|n IH]; intros [|a s]; simpl; try done.
Qed.

(** [s.center(w)] has [max(len(s), w)] characters. *)
Lemma center_length (s : string) (w : nat) :
  String.length (Py.center s w) = Nat.max (String.length s) w.
Proof.
  unfold Py.center. cbv zeta.
  destruct (Nat.leb_spec w (String.length s)) as [Hle|Hlt]; [lia|].
  rewrite !str_length_app, !spaces_length.
  remember (w - String.length s) as marg eqn:Hm.
  assert (Hleft : marg / 2
                  + (if Nat.odd marg && Nat.odd w then 1 else 0) <= marg).
  { pose proof (Nat.div_mod_eq marg 2) as Hdiv.
    pose proof (Nat.mod_upper_bound marg 2) as Hmod.
    destruct (Nat.odd marg) eqn:Hodd; cbn [andb].
    - apply Nat.odd_spec in Hodd as [k Hk].
      destruct (Nat.odd w); lia.
    - lia. }
  lia.
Qed.

(** [pydoc.cram] shortens a longer text to exactly [maxlen] characters
    when there is room for the ellipsis, and never lengthens a text beyond
    [maxlen] then. *)
Lemma cram_length_exact (text : string) (maxlen : nat) :
  3 <= maxlen -> maxlen < String.length text ->
  String.length (Py.cram text maxlen) = maxlen.
Proof.
  intros H3 Hlt. unfold Py.cram.
  destruct (Nat.ltb_spec maxlen (String.length text)); [|lia].
  cbv zeta. rewrite !str_length_app, take_length, drop_length.
  change (String.length "...") with 3.
  pose proof (Nat.div_mod_eq (maxlen - 3) 2) as Hdiv.
  pose proof (Nat.mod_upper_bound (maxlen - 3) 2) as Hmod.
  lia.
Qed.

Lemma cram_length_le (text : string) (maxlen : nat) :
  3 <= maxlen -> String.length (Py.cram text maxlen) <= maxlen.
Proof.
  intros H3.
  destruct (Nat.ltb_spec maxlen (String.length text)) as [Hlt|Hge].
  - rewrite cram_length_exact by done. lia.
  - unfold Py.cram.
    destruct (Nat.ltb_spec maxlen (String.length text)); [lia | done].
Qed.

Lemma pformat_length_le (obj : pyobj) (max_len : nat) (quote : bool) :
  3 <= max_len -> String.length (pformat obj max_len quote) <= max_len.
Proof. intros H. unfold pformat. by apply cram_length_le. Qed.

(** The length of [sep.join(xs)] when every element has the length given
    by [width]. *)
Lemma join_length {A : Type} (sep : string) (f : A -> string)
    (width : A -> nat) (xs : list A) :
  Forall (fun x => String.length (f x) = width x) xs ->
  String.length (Py.join sep (map f xs))
  = sum_list_with width xs + String.length sep * (length xs - 1).
Proof.
  unfold Py.join. induction 1 as [|x xs Hx Hxs IH]; [simpl; lia|].
  destruct xs as [|y ys].
  - simpl. lia.
  - change (String.length (f x +:+ sep +:+ String.concat sep (map f (y :: ys)))
            = sum_list_with width (x :: y :: ys)
              + String.length sep * (length (x :: y :: ys) - 1)).
    rewrite !str_length_app, IH, Hx. simpl. lia.
Qed.

Lemma lookup_list_to_map_keys {A : Type} (g : string -> A)
    (cols : list string) (c : string) :
  (list_to_map (map (fun col => (col, g col)) cols) : gmap string A) !! c
  = if decide (c ∈ cols) then Some (g c) else None.
Proof.
  induction cols as [|col cols IH]; simpl.
  - rewrite lookup_empty. by destruct (decide (c ∈ [])) as [H|H];
      [apply elem_of_nil in H|].
  - rewrite lookup_insert. destruct (decide (col = c)) as [->|Hne].
    + rewrite decide_True by constructor. done.
    + rewrite IH. destruct (decide (c ∈ cols)) as [Hin|Hnin].
      * rewrite decide_True by (by constructor). done.
      * rewrite decide_False; [done|].
        intros [?|?]%elem_of_cons; congruence.
Qed.

Lemma dd_init_fits (cols : list string) : dd_fits cols (dd_init cols).
Proof.
  split; intros c.
  - intros Hc. unfold dd_init. simpl.
    rewrite lookup_total_alt, lookup_list_to_map_keys.
    by rewrite decide_True.
  - unfold dd_init. simpl.
    rewrite !lookup_total_alt, !lookup_list_to_map_keys.
    destruct (decide (c ∈ cols)); simpl; constructor.
Qed.

Lemma dd_cell_length (eg : Example) (col val_str : string) :
  dd_cell eg col = Some val_str -> String.length val_str <= DD_MAX_VAL_LEN.
Proof.
  unfold dd_cell. intros H.
  destruct (features eg !! col) as [[|[|v vs]|[|x xs]]|];
    try discriminate; injection H as <-;
    apply pformat_length_le; unfold DD_MAX_VAL_LEN; lia.
Qed.

Lemma dd_fill_cell_fits (cols : list string) (eg : Example)
    (st : dd_state) (col : string) :
  dd_fits cols st -> dd_fits cols (dd_fill_cell eg st col).
Proof.
  intros [Hw Hv]. unfold dd_fill_cell.
  destruct (dd_cell eg col) as [val_str|] eqn:Hcell.
  - pose proof (dd_cell_length _ _ _ Hcell) as Hlen.
    split; intros c; simpl.
    + intros Hc. rewrite lookup_total_insert.
      destruct (decide (col = c)) as [->|Hne]; [|by apply Hw].
      specialize (Hw c Hc). dd_consts. lia.
    + rewrite !lookup_total_insert.
      destruct (decide (col = c)) as [->|Hne]; [|by apply Hv].
      apply Forall_app. split.
      * eapply Forall_impl; [apply Hv|]. simpl. intros v Hle. lia.
      * repeat constructor. dd_consts. lia.
  - split; intros c; simpl.
    + by apply Hw.
    + rewrite lookup_total_insert.
      destruct (decide (col = c)) as [->|Hne]; [|by apply Hv].
      apply Forall_app. split; [apply Hv|].
      repeat constructor. simpl. lia.
Qed.

Lemma dd_fill_fits (egs : list Example) (cols : list string) :
  dd_fits cols (dd_fill egs cols).
Proof.
  unfold dd_fill.
  assert (Hrow : forall eg l st,
            dd_fits cols st -> dd_fits cols (fold_left (dd_fill_cell eg) l st)).
  { intros eg l. induction l as [|c l IH]; intros st Hst; simpl; [done|].
    apply IH. by apply dd_fill_cell_fits. }
  generalize (dd_init_fits cols). generalize (dd_init cols).
  induction egs as [|eg egs IH]; intros st Hst; simpl; [done|].
  apply IH. by apply Hrow.
Qed.

Lemma dd_heading_cell_length (cols : list string) (st : dd_state)
    (c : string) :
  dd_fits cols st -> c ∈ cols ->
  String.length (Py.center (Py.cram c (col_widths st !!! c))
                           (col_widths st !!! c))
  = col_widths st !!! c.
Proof.
  intros [Hw _] Hc. specialize (Hw c Hc). dd_consts.
  rewrite center_length.
  destruct (Nat.ltb_spec (col_widths st !!! c) (String.length c))
    as [Hlt|Hge].
  - rewrite cram_length_exact by lia. lia.
  - unfold Py.cram.
    destruct (Nat.ltb_spec (col_widths st !!! c) (String.length c)); lia.
Qed.

Lemma dd_value_cell_length (cols : list string) (st : dd_state)
    (c : string) (j : nat) :
  dd_fits cols st ->
  String.length (Py.center ((col_vals st !!! c) !!! j)
                           (col_widths st !!! c))
  = col_widths st !!! c.
Proof.
  intros [_ Hv]. specialize (Hv c). rewrite center_length.
  rewrite list_lookup_total_alt.
  destruct ((col_vals st !!! c) !! j) as [v|] eqn:Hj; simpl.
  - eapply Forall_lookup_1 in Hv; [|exact Hj]. simpl in Hv. lia.
  - lia.
Qed.

Lemma borders_length (i n : nat) (x : string) :
  String.length (borders i n x)
  = String.length (borders i n "") + String.length x.
Proof.
  unfold borders.
  destruct (i =? 1); [destruct (n =? 1)|destruct (i <? n)];
    rewrite ?str_length_app; simpl; rewrite ?str_length_app; simpl; lia.
Qed.

(** Every line of a column group has the same width: the borders, the
    columns of the group and the separators between them. *)
Lemma dd_cg_lines_width (cols : list string) (st : dd_state)
    (n_egs n_groups i : nat) (g : list string) :
  dd_fits cols st ->
  Forall (fun c => c ∈ cols) g ->
  Forall (fun l =>
            String.length l
            = String.length (borders i n_groups "")
              + (sum_list_with (fun c => col_widths st !!! c) g
                 + 3 * (length g - 1)))
         (dd_cg_lines st n_egs n_groups i g).
Proof.
  intros Hfit Hg. unfold dd_cg_lines. cbv zeta.
  assert (Hhead :
    String.length
      (borders i n_groups
         (Py.join COLSEP
            (map (fun c => Py.center (Py.cram c (col_widths st !!! c))
                                     (col_widths st !!! c)) g)))
    = String.length (borders i n_groups "")
      + (sum_list_with (fun c => col_widths st !!! c) g
         + 3 * (length g - 1))).
  { rewrite borders_length.
    rewrite (join_length COLSEP _ (fun c => col_widths st !!! c)).
    - reflexivity.
    - eapply Forall_impl; [exact Hg|]. intros c Hc.
      by eapply dd_heading_cell_length. }
  cbn [app].
  apply Forall_cons; split; [by rewrite repeat_char_length|].
  apply Forall_cons; split; [exact Hhead|].
  apply Forall_cons; split; [by rewrite repeat_char_length|].
  apply Forall_app. split.
  - apply Forall_map, Forall_forall. intros j _. simpl.
    rewrite borders_length.
    rewrite (join_length COLSEP _ (fun c => col_widths st !!! c)).
    + reflexivity.
    + apply Forall_forall. intros c _.
      by eapply dd_value_cell_length.
  - repeat constructor. by rewrite repeat_char_length.
Qed.

Lemma group_width_app (widths : gmap string nat) (g : list string)
    (col : string) :
  group_width widths (g ++ [col])
  = group_width widths g + ((widths !!! col) + BORDER_SZ).
Proof.
  unfold group_width. rewrite sum_list_with_app. simpl. lia.
Qed.

Lemma group_width_sum (widths : gmap string nat) (g : list string) :
  group_width widths g
  = sum_list_with (fun c => widths !!! c) g + BORDER_SZ * length g.
Proof.
  unfold group_width. dd_consts.
  induction g as [|c g IH]; cbn [sum_list_with length]; [lia|].
  rewrite IH. lia.
Qed.

Lemma append_last_nonempty (gs : list (list string)) (col : string) :
  gs <> [] -> append_last gs col <> [].
Proof. destruct gs as [|g [|g' gs]]; simpl; done. Qed.

Lemma dd_pack_col_inv (max_width : nat) (widths : gmap string nat)
    (cols : list string) (st : list (list string) * nat) (col : string) :
  pack_inv max_width widths cols st -> col ∈ cols ->
  pack_inv max_width widths cols (dd_pack_col max_width widths st col).
Proof.
  destruct st as [groups tot].
  intros (g1 & rest & Hg & Hin & Hw & Htot) Hcol. simpl in Hg, Htot.
  subst groups. unfold dd_pack_col.
  destruct (Nat.leb_spec max_width (tot + ((widths !!! col) + BORDER_SZ)))
    as [Hge|Hlt].
  - exists g1, (rest ++ [[col]]). simpl. repeat split; try done.
    intros Hnil. by apply app_eq_nil in Hnil as [_ ?].
  - destruct rest as [|r rest].
    + exists (g1 ++ [col]), []. simpl. rewrite group_width_app.
      rewrite <- (Htot eq_refl). repeat split; try done.
      * apply Forall_app. split; [done | by repeat constructor].
      * by right.
    + exists g1, (append_last (r :: rest) col).
      repeat split; try done.
      intros Hnil. by apply append_last_nonempty in Hnil.
Qed.

Lemma dd_col_groups_inv (max_width : nat) (widths : gmap string nat)
    (cols : list string) :
  pack_inv max_width widths cols
    (fold_left (dd_pack_col max_width widths) cols ([[]], 0)).
Proof.
  assert (Hgen : forall l st,
            Forall (fun c => c ∈ cols) l ->
            pack_inv max_width widths cols st ->
            pack_inv max_width widths cols
              (fold_left (dd_pack_col max_width widths) l st)).
  { induction l as [|c l IH]; intros st Hl Hst; simpl; [done|].
    apply Forall_cons in Hl as [Hc Hl].
    apply IH; [done|]. by apply dd_pack_col_inv. }
  apply Hgen.
  - by apply Forall_forall.
  - exists [], []. simpl. repeat split; try done. by left.
Qed.

(** X22: in the first column group, when it holds a column, every line is
    shorter than [max_width]: there the packing loop counts every column
    of the group. *)
Theorem dd_first_group_within_width (egs : list Example) (max_width : nat)
    (g : list string) (gs : list (list string)) :
  dd_col_groups max_width (col_widths (dd_fill egs (dd_cols egs)))
                (dd_cols egs) = g :: gs ->
  g <> [] ->
  exists lines rest,
    dd_table egs max_width = lines :: rest
    /\ Forall (fun l => String.length l < max_width) lines.
Proof.
  intros Hgroups Hne.
  unfold dd_table. cbv zeta. rewrite Hgroups. simpl imap.
  eexists _, _. split; [reflexivity|].
  destruct (dd_col_groups_inv max_width
              (col_widths (dd_fill egs (dd_cols egs))) (dd_cols egs))
    as (g1 & rest & Hg & Hin & Hw & _).
  unfold dd_col_groups in Hgroups. rewrite Hg in Hgroups.
  injection Hgroups as -> ->.
  destruct Hw as [->|Hw]; [done|].
  eapply Forall_impl.
  - apply (dd_cg_lines_width (dd_cols egs)); [apply dd_fill_fits | exact Hin].
  - intros l ->. rewrite group_width_sum in Hw. dd_consts.
    assert (String.length (borders 1 (length (g :: gs)) "") <= 4).
    { unfold borders. simpl. destruct gs; simpl; lia. }
    destruct g as [|c g]; [done|]. simpl length in *. lia.
Qed.

(** ** Exceptions raised inside the loop over the warnings *)

(** If the pairs before a warning are formatted and the warning is not
    suppressed, an exception raised for it is the outcome of the loop. *)
Lemma for_warnings_raise (suppress : gset string)
    (body : string -> LintSample -> res string)
    (ws1 ws2 : list string) (ss1 ss2 : list LintSample)
    (w : string) (s : LintSample) (e : pyerr) :
  length ws1 = length ss1 ->
  (exists lines, for_warnings suppress body ws1 ss1 = Ok lines) ->
  w ∉ suppress ->
  body w s = Raise e ->
  for_warnings suppress body (ws1 ++ w :: ws2) (ss1 ++ s :: ss2) = Raise e.
Proof.
  intros Hlen [lines Hpre] Hw He. unfold for_warnings in *.
  rewrite zip_app_same_length by done.
  rewrite for_lines_app, Hpre. simpl.
  rewrite bool_decide_eq_false_2 by done.
  by rewrite He.
Qed.

Lemma preamble_body_Ok (pre : string) (r : res (list string)) :
  (exists lines, (let! body := r in Ok (pre :: body)) = Ok lines) ->
  exists body, r = Ok body.
Proof. intros [lines H]. destruct r; [eauto | discriminate]. Qed.

(** ** Zero denominators *)

Lemma truediv_zero (a z : float) :
  PrimFloat.eqb z 0 = true -> Py.truediv a z = Raise ZeroDivisionError.
Proof. intros Hz. unfold Py.truediv. by rewrite Hz. Qed.

Lemma llo_line_zero_total (warning : string) (sample : LintSample)
    (z : float) (ns : list float) :
  nums sample = z :: ns ->
  PrimFloat.eqb z 0 = true ->
  stats sample <> [] ->
  llo_line warning sample = Raise ZeroDivisionError.
Proof.
  intros Hn Hz Hs. unfold llo_line. rewrite Hn. simpl.
  destruct (stats sample) as [|bucket buckets]; [done|].
  simpl. by rewrite truediv_zero.
Qed.

Lemma dus_line_zero_total (warning : string) (sample : LintSample)
    (z : float) (ns : list float) :
  nums sample = z :: ns ->
  PrimFloat.eqb z 0 = true ->
  strings sample <> [] ->
  ns <> [] ->
  dus_line warning sample = Raise ZeroDivisionError.
Proof.
  intros Hn Hz Hs Hns. unfold dus_line. rewrite Hn. simpl.
  destruct (strings sample) as [|sign signs]; [done|].
  destruct ns as [|c cs]; [done|].
  simpl. by rewrite truediv_zero.
Qed.

(** C3 (as stated): when the denominator of a percentage is zero the two
    formatters skip the row or report a zero share.  They do neither: the
    division raises and the formatter returns no line at all. *)
Lemma zero_denominator_not_guarded :
  item0 (nums zero_length_sample) = Ok 0%float
  /\ item0 (nums zero_sign_sample) = Ok 0%float
  /\ _format_warnings_llo
       {| warnings := ["f"]; lint_samples := [zero_length_sample] |}
       ∅ MAX_WIDTH = Raise ZeroDivisionError
  /\ _format_warnings_dus
       {| warnings := ["f"]; lint_samples := [zero_sign_sample] |}
       ∅ MAX_WIDTH = Raise ZeroDivisionError.
Proof. repeat split; vm_compute; reflexivity. Qed.

(** C3 (amended): the division by the first number of the sample is not
    guarded.  When the warnings before it are formatted, a warning that is
    not suppressed and whose sample has a zero first number makes the
    list-length formatter raise [ZeroDivisionError] if the sample has a
    bucket, and the uncommon-sign formatter if the sample has a sign with
    its count.  The two formatters are taken each on a result of its own:
    the warnings, samples and suppression set of the one put no condition
    on those of the other. *)
Theorem zero_denominator_raises
    (wl1 wl2 : list string) (sl1 sl2 : list LintSample) (wl : string)
    (sl : LintSample) (zl : float) (nl : list float)
    (suppress_l : gset string) (width_l : nat)
    (wu1 wu2 : list string) (su1 su2 : list LintSample) (wu : string)
    (su : LintSample) (zu : float) (nu : list float)
    (suppress_u : gset string) (width_u : nat) :
  length wl1 = length sl1 ->
  (exists lines,
     _format_warnings_llo {| warnings := wl1; lint_samples := sl1 |}
                          suppress_l width_l = Ok lines) ->
  wl ∉ suppress_l ->
  nums sl = zl :: nl -> PrimFloat.eqb zl 0 = true -> stats sl <> [] ->
  length wu1 = length su1 ->
  (exists lines,
     _format_warnings_dus {| warnings := wu1; lint_samples := su1 |}
                          suppress_u width_u = Ok lines) ->
  wu ∉ suppress_u ->
  nums su = zu :: nu -> PrimFloat.eqb zu 0 = true ->
  strings su <> [] -> nu <> [] ->
  _format_warnings_llo
    {| warnings := wl1 ++ wl :: wl2; lint_samples := sl1 ++ sl :: sl2 |}
    suppress_l width_l = Raise ZeroDivisionError
  /\ _format_warnings_dus
       {| warnings := wu1 ++ wu :: wu2; lint_samples := su1 ++ su :: su2 |}
       suppress_u width_u = Raise ZeroDivisionError.
Proof.
  intros Hlen_l Hl Hwl Hnl Hzl Hsl Hlen_u Hu Hwu Hnu Hzu Hsu Hnu'.
  apply preamble_body_Ok in Hl, Hu.
  unfold _format_warnings_llo, _format_warnings_dus.
  cbn [warnings lint_samples] in *.
  split.
  - rewrite (for_warnings_raise suppress_l llo_line wl1 wl2 sl1 sl2 wl sl
               ZeroDivisionError); eauto using llo_line_zero_total.
  - rewrite (for_warnings_raise suppress_u dus_line wu1 wu2 su1 su2 wu su
               ZeroDivisionError); eauto using dus_line_zero_total.
Qed.

Lemma zero_denominator_raises_witness :
  _format_warnings_llo
    {| warnings := ["e"] ++ "f" :: ["g"];
       lint_samples :=
         [ordinary_length_sample] ++ zero_length_sample
           :: [ordinary_length_sample] |}
    ∅ MAX_WIDTH = Raise ZeroDivisionError
  /\ _format_warnings_dus
       {| warnings := ["e"] ++ "f" :: ["g"];
          lint_samples :=
            [ordinary_sign_sample] ++ zero_sign_sample
              :: [ordinary_sign_sample] |}
       {["h"]} MAX_WIDTH = Raise ZeroDivisionError.
Proof.
  apply (zero_denominator_raises
           ["e"] ["g"] [ordinary_length_sample] [ordinary_length_sample]
           "f" zero_length_sample 0%float [] ∅ MAX_WIDTH
           ["e"] ["g"] [ordinary_sign_sample] [ordinary_sign_sample]
           "f" zero_sign_sample 0%float [1%float] {["h"]} MAX_WIDTH).
  - reflexivity.
  - eexists. vm_compute. reflexivity.
  - set_solver.
  - reflexivity.
  - vm_compute. reflexivity.
  - simpl. discriminate.
  - reflexivity.
  - eexists. vm_compute. reflexivity.
  - set_solver.
  - reflexivity.
  - vm_compute. reflexivity.
  - simpl. discriminate.
  - discriminate.
Defined.

(** ** Shares below one percent *)

Lemma SFcompare_antisym (x y : spec_float) :
  SFcompare y x = option_map CompOpp (SFcompare x y).
Proof.
  destruct x as [sx|sx| |sx mx ex], y as [sy|sy| |sy my ey]; simpl;
    try reflexivity;
    try (destruct sx; reflexivity);
    try (destruct sy; reflexivity);
    try (destruct sx, sy; reflexivity).
  destruct sx, sy; simpl; try reflexivity;
    rewrite (Z.compare_antisym ex ey);
    destruct (ex ?= ey)%Z; simpl; try reflexivity;
    rewrite (Pos.compare_cont_antisym mx my Eq); reflexivity.
Qed.

(** For a share that is a number, [1 <= share] fails exactly when
    [share < 1] holds. *)
Lemma float_not_le_iff_lt (a p : float) :
  PrimFloat.is_nan a = false ->
  PrimFloat.is_nan p = false ->
  PrimFloat.leb a p = negb (PrimFloat.ltb p a).
Proof.
  unfold PrimFloat.is_nan.
  rewrite leb_spec, ltb_spec, !FloatAxioms.eqb_spec.
  unfold SFleb, SFltb, SFeqb.
  rewrite (SFcompare_antisym (Prim2SF a) (Prim2SF p)).
  intros Ha Hp.
  destruct (Prim2SF a) as [sa|sa| |sa ma ea] eqn:Ea; [| |done|];
    (destruct (Prim2SF p) as [sp|sp| |sp mp ep] eqn:Ep; [| |done|]);
    simpl in *; try reflexivity;
    try (destruct sa; reflexivity); try (destruct sp; reflexivity);
    try (destruct sa, sp; reflexivity).
  destruct sa, sp; simpl; try reflexivity;
    destruct (ea ?= ep)%Z; simpl; try reflexivity;
    destruct (Pos.compare_cont Eq ma mp); reflexivity.
Qed.

Lemma dus_wstr_unfold (n c : float) (sign : string) :
  PrimFloat.eqb n 0 = false ->
  dus_wstr n (sign, c)
  = Ok (USD_WFMT sign
          (if PrimFloat.leb 1 (PrimFloat.mul (PrimFloat.div c n) 100)
           then PCT_FMT (PrimFloat.mul (PrimFloat.div c n) 100)
           else "< 1%")).
Proof. intros Hn. unfold dus_wstr, Py.truediv. by rewrite Hn. Qed.

(** C5: in the uncommon-sign formatter a share of exactly 0.5% is
    rendered as [< 1%] and a share of exactly 1.0% as [1%]; for every share
    that is a number, the branch of [< 1%] is taken exactly when the share
    is below 1. *)
Theorem uncommon_sign_share_below_one :
  PrimFloat.mul (PrimFloat.div 1 200) 100 = 0.5%float
  /\ PrimFloat.mul (PrimFloat.div 1 100) 100 = 1%float
  /\ _format_warnings_dus half_percent_result ∅ MAX_WIDTH
     = Ok [USD_PREAMBLE; "* f: negative occurred < 1% of the time"]
  /\ _format_warnings_dus one_percent_result ∅ MAX_WIDTH
     = Ok [USD_PREAMBLE; "* f: negative occurred 1% of the time"]
  /\ forall (n c : float) (sign : string),
       let share := PrimFloat.mul (PrimFloat.div c n) 100 in
       PrimFloat.eqb n 0 = false ->
       PrimFloat.is_nan share = false ->
       dus_wstr n (sign, c)
       = Ok (USD_WFMT sign
               (if PrimFloat.ltb share 1 then "< 1%" else PCT_FMT share)).
Proof.
  split; [vm_compute; reflexivity|].
  split; [vm_compute; reflexivity|].
  split; [vm_compute; reflexivity|].
  split; [vm_compute; reflexivity|].
  intros n c sign share Hn Hnan.
  rewrite dus_wstr_unfold by done. fold share.
  rewrite (float_not_le_iff_lt 1 share) by done.
  by destruct (PrimFloat.ltb share 1).
Qed.

(** ** The statistic names of the non-normal-numeric formatter *)

Lemma split_aux_length (c : ascii) (s cur : string) :
  length (Py.split_aux c s cur) = S (count_char c s).
Proof.
  revert cur; induction s as [|a s IH]; intros cur; simpl; [reflexivity|].
  destruct (Ascii.eqb a c); simpl; by rewrite IH.
Qed.

(** [s.split(c)] has one field more than [s] has separators. *)
Lemma split_length (c : ascii) (s : string) :
  length (Py.split c s) = S (count_char c s).
Proof. apply split_aux_length. Qed.

Lemma unpack2_malformed (fields : list string) :
  length fields <> 2 -> unpack2 fields = Raise ValueError.
Proof. destruct fields as [|a [|b [|c fs]]]; simpl; done. Qed.

(** The split of the identifier comes before the test of the suppression
    set and before any use of the sample. *)
Lemma nfnr_lines_malformed (suppress : gset string) (w : string)
    (s : LintSample) :
  count_char ":" w <> 1 ->
  nfnr_lines suppress (w, s) = Raise ValueError.
Proof.
  intros Hc. unfold nfnr_lines.
  rewrite unpack2_malformed; [reflexivity|].
  rewrite split_length. lia.
Qed.

(** C7: a warning identifier without exactly one colon makes the
    non-normal-numeric formatter raise the error of the failed parse, a
    [ValueError], whatever the suppression set and the sample: no default
    is guessed.  The identifier is one the loop reaches: it is paired with
    a sample and the pairs before it are formatted. *)
Theorem nfnr_malformed_identifier_raises
    (ws1 ws2 : list string) (ss1 ss2 : list LintSample) (w : string)
    (s0 s : LintSample) (suppress : gset string) (max_width : nat) :
  count_char ":" w <> 1 ->
  length ws1 = length ss1 ->
  (exists lines,
     _format_warnings_nfnr {| warnings := ws1; lint_samples := s0 :: ss1 |}
                           suppress max_width = Ok lines) ->
  _format_warnings_nfnr
    {| warnings := ws1 ++ w :: ws2; lint_samples := s0 :: ss1 ++ s :: ss2 |}
    suppress max_width = Raise ValueError.
Proof.
  intros Hc Hlen [lines Hpre].
  unfold _format_warnings_nfnr in *. simpl in *.
  destruct (item0 (stats s0)) as [ds|e]; simpl in *; [|discriminate].
  rewrite zip_app_same_length by done.
  rewrite for_lines_app.
  destruct (for_lines (nfnr_lines suppress) (zip ws1 ss1)) as [l1|e];
    [|discriminate].
  cbn [bind zip zip_with for_lines].
  by rewrite nfnr_lines_malformed.
Qed.

Lemma nfnr_malformed_identifier_raises_witness :
  _format_warnings_nfnr
    {| warnings := [] ++ "height" :: [];
       lint_samples :=
         stats_sample typical_stat :: [] ++ stats_sample typical_stat :: [] |}
    ∅ MAX_WIDTH = Raise ValueError.
Proof.
  apply (nfnr_malformed_identifier_raises [] [] [] [] "height"
           (stats_sample typical_stat) (stats_sample typical_stat)
           ∅ MAX_WIDTH).
  - vm_compute. lia.
  - reflexivity.
  - eexists. vm_compute. reflexivity.
Defined.

(** For an identifier [feature:names] that is not suppressed, the line
    lists exactly the names of the suffix, each with the value of that
    field of the first [Stat] of the sample, at five significant digits. *)
Lemma nfnr_lines_wellformed (suppress : gset string) (w feature names : string)
    (sample : LintSample) (st : Stat) (sts : list Stat) :
  Py.split ":" w = [feature; names] ->
  feature ∉ suppress ->
  stats sample = st :: sts ->
  nfnr_lines suppress (w, sample)
  = let! stats_warnings :=
      map_res (fun name => let! v := getattr st name in NFNR_STATFMT name v)
              (Py.split "," names) in
    Ok [NFNR_WFMT (pformat_str feature false) (Py.join ", " stats_warnings)].
Proof.
  intros Hsplit Hf Hst. unfold nfnr_lines.
  rewrite Hsplit. cbn [unpack2 bind].
  rewrite bool_decide_eq_false_2 by done.
  rewrite Hst. reflexivity.
Qed.

(** C6: for the identifier [height:mean,std_dev] and a sample whose first
    [Stat] has mean 1.5 and standard deviation 0.25, the body line of the
    non-normal-numeric formatter is the bullet of [height] followed by
    [mean = 1.5] and then [std_dev = 0.25]: the names of the suffix, in its
    order, and no other field. *)
Theorem nfnr_lists_flagged_statistics
    (s0 sample : LintSample) (ds st : Stat) (dss sts : list Stat)
    (suppress : gset string) (max_width : nat) :
  stats s0 = ds :: dss ->
  stats sample = st :: sts ->
  stat_mean st = 1.5%float ->
  stat_std_dev st = 0.25%float ->
  "height" ∉ suppress ->
  _format_warnings_nfnr
    {| warnings := ["height:mean,std_dev"]; lint_samples := [s0; sample] |}
    suppress max_width
  = Ok [NFNR_PREAMBLE (stat_mean ds) (stat_std_dev ds);
        "* height had " +:+ "mean = 1.5" +:+ ", " +:+ "std_dev = 0.25"].
Proof.
  intros Hs0 Hst Hmean Hdev Hsup.
  unfold _format_warnings_nfnr.
  cbn [lint_samples warnings item0 bind tail zip zip_with for_lines].
  rewrite Hs0. cbn [item0 bind].
  rewrite (nfnr_lines_wellformed suppress _ "height" "mean,std_dev"
             sample st sts) by (done || (vm_compute; reflexivity)).
  replace (Py.split "," "mean,std_dev") with ["mean"; "std_dev"]
    by (vm_compute; reflexivity).
  cbn [map_res].
  change (getattr st "mean") with (Ok (SNum (stat_mean st))).
  change (getattr st "std_dev") with (Ok (SNum (stat_std_dev st))).
  rewrite Hmean, Hdev.
  reflexivity.
Qed.

Lemma nfnr_lists_flagged_statistics_witness :
  _format_warnings_nfnr
    {| warnings := ["height:mean,std_dev"];
       lint_samples := [stats_sample typical_stat; stats_sample height_stat] |}
    ∅ MAX_WIDTH
  = Ok [NFNR_PREAMBLE (stat_mean typical_stat) (stat_std_dev typical_stat);
        "* height had " +:+ "mean = 1.5" +:+ ", " +:+ "std_dev = 0.25"].
Proof.
  apply (nfnr_lists_flagged_statistics
           (stats_sample typical_stat) (stats_sample height_stat)
           typical_stat height_stat [] [] ∅ MAX_WIDTH).
  - reflexivity.
  - reflexivity.
  - reflexivity.
  - reflexivity.
  - set_solver.
Defined.

(** ** Samples without values *)

(** C8 (as stated): for a sample that carries no values the pair formatter
    renders an empty sample string.  It does not: the warning is written a
    second time where the values would be. *)
Lemma pair_of_empty_sample_not_empty :
  _format_warning_sample_pair "a" empty_sample true = "* a: a"
  /\ _format_warning_sample_pair "a" empty_sample true <> LI_SAMP "a" "".
Proof. split; vm_compute; [reflexivity | discriminate]. Qed.

(** C8 (amended): a sample with neither strings nor numbers does not make
    the pair formatter fail: it renders the warning in place of the sample
    values; and the duplicate-example formatter renders an empty cell,
    leaving the column width as it is, for a feature that an example
    lacks, whose kind is unset, or whose value list is empty. *)
Theorem empty_values_rendered
    (warning : string) (sample : LintSample) (quote_vals : bool)
    (eg : Example) (col : string) (st : dd_state) :
  strings sample = [] ->
  nums sample = [] ->
  features eg !! col = None \/ features eg !! col = Some NoKind
    \/ features eg !! col = Some (BytesList [])
    \/ features eg !! col = Some (FloatList []) ->
  _format_warning_sample_pair warning sample quote_vals
  = LI_SAMP (pformat_str warning false) (pformat_str warning false)
  /\ dd_fill_cell eg st col
     = {| col_vals := <[col := (col_vals st !!! col) ++ [""]]> (col_vals st);
          col_widths := col_widths st |}.
Proof.
  intros Hs Hn Hf. split.
  - unfold _format_warning_sample_pair, samp_vals_of. by rewrite Hs, Hn.
  - unfold dd_fill_cell, dd_cell.
    by destruct Hf as [-> | [-> | [-> | ->]]].
Qed.

Lemma empty_values_rendered_witness :
  _format_warning_sample_pair "a" empty_sample true
  = LI_SAMP (pformat_str "a" false) (pformat_str "a" false)
  /\ dd_fill_cell {| features := ∅ |} (dd_init ["c"]) "c"
     = {| col_vals :=
            <["c" := (col_vals (dd_init ["c"]) !!! "c") ++ [""]]>
              (col_vals (dd_init ["c"]));
          col_widths := col_widths (dd_init ["c"]) |}.
Proof.
  apply (empty_values_rendered "a" empty_sample true
           {| features := ∅ |} "c" (dd_init ["c"])).
  - reflexivity.
  - reflexivity.
  - left. reflexivity.
Defined.

(** ** Samples shorter than the warnings *)

Lemma for_warnings_take (suppress : gset string)
    (body : string -> LintSample -> res string)
    (ws : list string) (samples : list LintSample) :
  for_warnings suppress body (take (length samples) ws) samples
  = for_warnings suppress body ws samples.
Proof. unfold for_warnings. by rewrite zip_take_length. Qed.

Lemma zip_length_le_r {A B : Type} (xs : list A) (ys : list B) :
  length (zip xs ys) <= length ys.
Proof.
  revert ys; induction xs as [|x xs IH]; intros [|y ys]; simpl; try lia.
  specialize (IH ys). lia.
Qed.

(** The body of the generic formatter has at most one line per sample. *)
Lemma for_warnings_total_length (suppress : gset string)
    (f : string -> LintSample -> string)
    (ws : list string) (samples : list LintSample) :
  exists body,
    for_warnings suppress (fun w s => Ok (f w s)) ws samples = Ok body
    /\ length body <= length samples.
Proof.
  rewrite for_warnings_skips_suppressed.
  exists (map (fun p : string * LintSample => f p.1 p.2)
              (filter (fun p => p.1 ∉ suppress) (zip ws samples))).
  split.
  - induction (filter _ (zip ws samples)) as [|[w s] ps IH]; simpl;
      [done | by rewrite IH].
  - rewrite length_map.
    etrans; [apply length_filter | apply zip_length_le_r].
Qed.

(** C10: when there are samples, but fewer than warnings, the formatters
    that pair the two give what they give on the warnings cut to the number
    of samples: the warnings beyond are left out and raise nothing.  The
    generic formatter, which cannot fail, returns the preamble and at most
    one line per sample. *)
Theorem trailing_warnings_omitted
    (ws : list string) (samples : list LintSample)
    (suppress : gset string) (max_width : nat) :
  samples <> [] ->
  length samples < length ws ->
  let result := {| warnings := ws; lint_samples := samples |} in
  let cut := {| warnings := take (length samples) ws;
                lint_samples := samples |} in
  _format_warnings result suppress max_width
    = _format_warnings cut suppress max_width
  /\ _format_warnings_de result suppress max_width
     = _format_warnings_de cut suppress max_width
  /\ _format_warnings_llo result suppress max_width
     = _format_warnings_llo cut suppress max_width
  /\ _format_warnings_dus result suppress max_width
     = _format_warnings_dus cut suppress max_width
  /\ _format_warnings_don result suppress max_width
     = _format_warnings_don cut suppress max_width
  /\ exists body,
       _format_warnings result suppress max_width
         = Ok (FLAG_SAMPS_PREAMBLE :: body)
       /\ length body <= length samples.
Proof.
  intros Hne Hlt result cut.
  destruct samples as [|s samples]; [done|].
  unfold _format_warnings, _format_warnings_de, _format_warnings_llo,
    _format_warnings_dus, _format_warnings_don, result, cut.
  cbn [warnings lint_samples].
  rewrite !for_warnings_take.
  do 5 (split; [reflexivity|]).
  destruct (for_warnings_total_length suppress
              (fun w smp => _format_warning_sample_pair w smp true)
              ws (s :: samples)) as [body [Hb Hl]].
  exists body. by rewrite Hb.
Qed.

Lemma trailing_warnings_omitted_witness :
  _format_warnings
    {| warnings := ["a"; "b"]; lint_samples := [empty_sample] |} ∅ MAX_WIDTH
  = _format_warnings
      {| warnings := take (length [empty_sample]) ["a"; "b"];
         lint_samples := [empty_sample] |} ∅ MAX_WIDTH.
Proof.
  apply (trailing_warnings_omitted ["a"; "b"] [empty_sample] ∅ MAX_WIDTH).
  - discriminate.
  - simpl. lia.
Defined.

(** ** Further facts about the formatters *)

(** The formatters that take the first number or the first [Stat] of a
    sample raise [IndexError] when the sample has none. *)
Lemma indexing_formatters_fail_on_empty_sample (warning : string) :
  llo_line warning empty_sample = Raise IndexError
  /\ dus_line warning empty_sample = Raise IndexError
  /\ don_line warning empty_sample = Raise IndexError.
Proof. repeat split; reflexivity. Qed.

(** Five significant digits in the statistics of the non-normal-numeric
    formatter, four in [pformat], three in the percentages. *)
Lemma significant_digits :
  NFNR_STATFMT "mean" (SNum 1.23456789%float) = Ok "mean = 1.2346"
  /\ pformat (Scalar (SNum 1.23456789%float)) MAX_LEN true = "1.235"
  /\ PCT_FMT 33.3333333%float = "33.3%".
Proof. repeat split; vm_compute; reflexivity. Qed.

(* ================================================================== *)
(** * Further properties of the formatters *)

(** ** Loops and comprehensions *)

Lemma map_res_pairs_total {A : Type} (g : string -> LintSample -> A)
    (ps : list (string * LintSample)) :
  map_res (fun '(w, s) => Ok (g w s)) ps
  = Ok (map (fun p : string * LintSample => g p.1 p.2) ps).
Proof. induction ps as [|[w s] ps IH]; simpl; [done | by rewrite IH]. Qed.

Lemma map_res_total {A B : Type} (g : A -> B) (xs : list A) :
  map_res (fun x => Ok (g x)) xs = Ok (map g xs).
Proof. induction xs as [|x xs IH]; simpl; [done | by rewrite IH]. Qed.

Lemma map_res_length {A B : Type} (f : A -> res B) (xs : list A)
    (ys : list B) :
  map_res f xs = Ok ys -> length ys = length xs.
Proof.
  revert ys; induction xs as [|x xs IH]; intros ys; simpl.
  - by intros [= <-].
  - destruct (f x) as [y|e]; simpl; [|discriminate].
    destruct (map_res f xs) as [ys'|e]; simpl; [|discriminate].
    intros [= <-]. simpl. by rewrite (IH ys').
Qed.

(** A comprehension with a failing element yields no list. *)
Lemma map_res_raises {A B : Type} (f : A -> res B) (xs : list A) (x : A)
    (e : pyerr) :
  x ∈ xs -> f x = Raise e -> exists e', map_res f xs = Raise e'.
Proof.
  induction 1 as [x xs|x y xs Hin IH]; intros Hx; simpl.
  - rewrite Hx. eauto.
  - destruct (f y) as [b|e1]; simpl; [|eauto].
    destruct (IH Hx) as [e' ->]. eauto.
Qed.

(** The first failing element decides the exception. *)
Lemma map_res_first_raise {A B : Type} (f : A -> res B)
    (xs1 xs2 : list A) (x : A) (e : pyerr) :
  Forall (fun a => exists b, f a = Ok b) xs1 ->
  f x = Raise e ->
  map_res f (xs1 ++ x :: xs2) = Raise e.
Proof.
  induction 1 as [|a xs1 [b Hb] _ IH]; intros Hx; simpl.
  - by rewrite Hx.
  - rewrite Hb. simpl. by rewrite IH.
Qed.

(** ** One line for each pair that is not suppressed *)

(** X1: when there are samples, the generic formatter never fails: it
    returns the preamble and, in order, one line for each pair of a warning
    and a sample whose warning is not suppressed; the enumerated-value
    formatter does the same with unquoted values. *)
Theorem paired_lines_of_unsuppressed (result : LintResult)
    (suppress : gset string) (max_width : nat) :
  lint_samples result <> [] ->
  let kept := filter (fun p : string * LintSample => p.1 ∉ suppress)
                     (zip (warnings result) (lint_samples result)) in
  _format_warnings result suppress max_width
  = Ok (FLAG_SAMPS_PREAMBLE
          :: map (fun p => _format_warning_sample_pair p.1 p.2 true) kept)
  /\ _format_warnings_de result suppress max_width
     = Ok (FLAG_SAMPS_PREAMBLE
             :: map (fun p => _format_warning_sample_pair p.1 p.2 false)
                    kept).
Proof.
  intros Hne kept. unfold _format_warnings, _format_warnings_de.
  rewrite !for_warnings_skips_suppressed.
  rewrite !map_res_pairs_total. fold kept.
  by destruct (lint_samples result).
Qed.

Lemma paired_lines_of_unsuppressed_witness :
  _format_warnings
    {| warnings := ["a"; "b"]; lint_samples := [empty_sample; empty_sample] |}
    {["a"]} MAX_WIDTH
  = Ok [FLAG_SAMPS_PREAMBLE; "* b: b"].
Proof.
  destruct (paired_lines_of_unsuppressed
              {| warnings := ["a"; "b"];
                 lint_samples := [empty_sample; empty_sample] |}
              {["a"]} MAX_WIDTH) as [H _].
  - discriminate.
  - rewrite H. vm_compute. reflexivity.
Defined.

Lemma paired_formatters_all_suppressed_witness :
  _format_warnings_llo
    {| warnings := ["f"]; lint_samples := [zero_length_sample] |}
    {["f"]} MAX_WIDTH = Ok [FLAG_PREAMBLE]
  /\ _format_warnings_dus
       {| warnings := ["f"]; lint_samples := [zero_length_sample] |}
       {["f"]} MAX_WIDTH = Ok [USD_PREAMBLE].
Proof.
  destruct (paired_formatters_all_suppressed
              {| warnings := ["f"]; lint_samples := [zero_length_sample] |}
              {["f"]} MAX_WIDTH) as (_ & _ & Hllo & Hdus & _).
  - apply Forall_cons. split; [set_solver | constructor].
  - discriminate.
  - by split.
Defined.

(** ** Samples beyond the warnings *)

Lemma zip_take_length_l {A B : Type} (xs : list A) (ys : list B) :
  zip xs (take (length xs) ys) = zip xs ys.
Proof.
  revert ys; induction xs as [|x xs IH]; intros [|y ys]; simpl; try done.
  by rewrite IH.
Qed.

(** X3: the samples beyond the number of warnings are never read: each
    pairing formatter returns, or raises, what it does on the samples cut
    to the number of warnings.  (The generic formatter is left out: with
    no warning at all, cutting the samples moves it to its other
    branch.) *)
Theorem trailing_samples_ignored (ws : list string)
    (samples : list LintSample) (suppress : gset string) (max_width : nat) :
  let result := {| warnings := ws; lint_samples := samples |} in
  let cut := {| warnings := ws; lint_samples := take (length ws) samples |} in
  _format_warnings_de result suppress max_width
    = _format_warnings_de cut suppress max_width
  /\ _format_warnings_llo result suppress max_width
     = _format_warnings_llo cut suppress max_width
  /\ _format_warnings_dus result suppress max_width
     = _format_warnings_dus cut suppress max_width
  /\ _format_warnings_don result suppress max_width
     = _format_warnings_don cut suppress max_width.
Proof.
  intros result cut.
  unfold _format_warnings_de, _format_warnings_llo, _format_warnings_dus,
    _format_warnings_don, for_warnings, result, cut.
  cbn [warnings lint_samples].
  by rewrite zip_take_length_l.
Qed.

(** ** Concatenated results *)

(** X4: the generic formatter works pair by pair: for two results whose
    warnings and samples are paired one to one, the output for their
    concatenation is the preamble followed by the body of the first and
    the body of the second. *)
Theorem format_warnings_concatenation
    (ws1 ws2 : list string) (ss1 ss2 : list LintSample)
    (suppress : gset string) (max_width : nat) (body1 body2 : list string) :
  length ws1 = length ss1 ->
  _format_warnings {| warnings := ws1; lint_samples := ss1 |}
                   suppress max_width = Ok (FLAG_SAMPS_PREAMBLE :: body1) ->
  _format_warnings {| warnings := ws2; lint_samples := ss2 |}
                   suppress max_width = Ok (FLAG_SAMPS_PREAMBLE :: body2) ->
  _format_warnings
    {| warnings := ws1 ++ ws2; lint_samples := ss1 ++ ss2 |}
    suppress max_width = Ok (FLAG_SAMPS_PREAMBLE :: body1 ++ body2).
Proof.
  intros Hlen H1 H2. unfold _format_warnings, for_warnings in *.
  cbn [warnings lint_samples] in *.
  destruct ss1 as [|s1 ss1].
  - destruct ws1; [|done]. discriminate H1.
  - destruct ss2 as [|s2 ss2]; [discriminate H2|].
    cbn [app]. rewrite app_comm_cons.
    rewrite (zip_app_same_length ws1 ws2 (s1 :: ss1) (s2 :: ss2)) by done.
    rewrite for_lines_app.
    destruct (for_lines _ (zip ws1 (s1 :: ss1))) as [l1|e];
      [|discriminate H1].
    destruct (for_lines _ (zip ws2 (s2 :: ss2))) as [l2|e];
      [|discriminate H2].
    simpl in *. by injection H1 as ->; injection H2 as ->.
Qed.

Lemma format_warnings_concatenation_witness :
  _format_warnings
    {| warnings := ["a"] ++ ["b"];
       lint_samples := [empty_sample] ++ [empty_sample] |}
    ∅ MAX_WIDTH = Ok (FLAG_SAMPS_PREAMBLE :: ["* a: a"] ++ ["* b: b"]).
Proof.
  apply (format_warnings_concatenation ["a"] ["b"] [empty_sample]
           [empty_sample] ∅ MAX_WIDTH ["* a: a"] ["* b: b"]).
  - reflexivity.
  - vm_compute. reflexivity.
  - vm_compute. reflexivity.
Defined.

(** ** The characters of the printed values *)

Section all_chars.
Variable P : ascii -> bool.

Lemma all_chars_app (s t : string) :
  all_chars P (s +:+ t) = all_chars P s && all_chars P t.
Proof.
  induction s as [|a s IH]; simpl; [done|].
  by rewrite IH, andb_assoc.
Qed.

Lemma all_chars_rev_app (s t : string) :
  all_chars P (String.rev_app s t) = all_chars P s && all_chars P t.
Proof.
  revert t; induction s as [|a s IH]; intros t; simpl; [done|].
  rewrite IH. simpl. destruct (P a), (all_chars P s); simpl; done.
Qed.

Lemma all_chars_rev (s : string) :
  all_chars P (String.rev s) = all_chars P s.
Proof. unfold String.rev. rewrite all_chars_rev_app. simpl. apply andb_true_r. Qed.

Lemma all_chars_take (n : nat) (s : string) :
  all_chars P s = true -> all_chars P (Py.take n s) = true.
Proof.
  revert s; induction n as [|n IH]; intros [|a s]; simpl; try done.
  intros [Ha Hs]%andb_prop. by rewrite Ha, IH.
Qed.

Lemma all_chars_drop (n : nat) (s : string) :
  all_chars P s = true -> all_chars P (Py.drop n s) = true.
Proof.
  revert s; induction n as [|n IH]; intros [|a s]; simpl; try done.
  intros [Ha Hs]%andb_prop. by apply IH.
Qed.

Lemma all_chars_lstrip (c : ascii) (s : string) :
  all_chars P s = true -> all_chars P (Py.lstrip c s) = true.
Proof.
  induction s as [|a s IH]; simpl; [done|].
  intros H. destruct (Ascii.eqb a c); [|done].
  apply andb_prop in H as [_ H]. by apply IH.
Qed.

Lemma all_chars_rstrip (c : ascii) (s : string) :
  all_chars P s = true -> all_chars P (Py.rstrip c s) = true.
Proof.
  intros H. unfold Py.rstrip.
  rewrite all_chars_rev. apply all_chars_lstrip. by rewrite all_chars_rev.
Qed.

Lemma all_chars_strip (c : ascii) (s : string) :
  all_chars P s = true -> all_chars P (Py.strip c s) = true.
Proof. intros H. by apply all_chars_rstrip, all_chars_lstrip. Qed.

Lemma all_chars_repeat_char (c : ascii) (n : nat) :
  P c = true -> all_chars P (Py.repeat_char c n) = true.
Proof. intros Hc. induction n as [|n IH]; simpl; [done | by rewrite Hc]. Qed.

Lemma all_chars_re_sub_u (s : string) :
  all_chars P s = true -> all_chars P (Py.re_sub_u s) = true.
Proof.
  induction s as [|a s IH]; [done|].
  intros H. apply andb_prop in H as [Ha Hs]. simpl.
  destruct s as [|b s'].
  - simpl. by rewrite Ha.
  - destruct (Ascii.eqb a "u"
              && (Ascii.eqb b Py.squote || Ascii.eqb b Py.dquote));
      [by apply IH|].
    change (P a && all_chars P (Py.re_sub_u (String b s')) = true).
    by rewrite Ha, IH.
Qed.

Lemma all_chars_cram (s : string) (maxlen : nat) :
  P "." = true ->
  all_chars P s = true -> all_chars P (Py.cram s maxlen) = true.
Proof.
  intros Hdot H. unfold Py.cram.
  destruct (maxlen <? String.length s); [|done].
  cbv zeta. rewrite !all_chars_app.
  rewrite all_chars_take, all_chars_drop by done.
  simpl. by rewrite Hdot.
Qed.

Lemma all_chars_join (sep : string) (xs : list string) :
  all_chars P sep = true ->
  Forall (fun x => all_chars P x = true) xs ->
  all_chars P (Py.join sep xs) = true.
Proof.
  intros Hsep. unfold Py.join.
  induction 1 as [|x xs Hx Hxs IH]; [done|].
  destruct xs as [|y ys]; [done|].
  change (all_chars P (x +:+ sep +:+ String.concat sep (y :: ys)) = true).
  by rewrite !all_chars_app, Hx, Hsep, IH.
Qed.
End all_chars.

(** The representation of a string holds no newline: [repr] escapes it. *)
Lemma repr_char_no_newline (q c : ascii) :
  q = Py.squote \/ q = Py.dquote ->
  all_chars not_newline (Py.repr_char q c) = true.
Proof.
  intros [-> | ->];
    destruct c as [[] [] [] [] [] [] [] []]; vm_compute; reflexivity.
Qed.

Lemma repr_body_no_newline (q : ascii) (s : string) :
  q = Py.squote \/ q = Py.dquote ->
  all_chars not_newline (Py.repr_body q s) = true.
Proof.
  intros Hq. induction s as [|c s IH]; simpl; [done|].
  by rewrite all_chars_app, repr_char_no_newline, IH.
Qed.

Lemma repr_str_no_newline (s : string) :
  all_chars not_newline (Py.repr_str s) = true.
Proof.
  unfold Py.repr_str. cbv zeta.
  destruct (Py.contains Py.squote s && negb (Py.contains Py.dquote s));
    simpl; rewrite all_chars_app, repr_body_no_newline by auto; reflexivity.
Qed.

Lemma pformat_str_no_newline (s : string) (quote : bool) :
  all_chars not_newline (pformat_str s quote) = true.
Proof.
  unfold pformat_str, pformat. cbv zeta.
  assert (H : unwrap_single (Scalar (SStr s)) = Scalar (SStr s))
    by reflexivity.
  rewrite H. simpl pprint_pformat.
  apply all_chars_cram; [reflexivity|].
  destruct quote.
  - apply all_chars_re_sub_u, repr_str_no_newline.
  - do 2 apply all_chars_strip.
    apply all_chars_re_sub_u, repr_str_no_newline.
Qed.

Lemma count_char_app (c : ascii) (s t : string) :
  count_char c (s +:+ t) = count_char c s + count_char c t.
Proof. induction s as [|a s IH]; simpl; [done | rewrite IH; lia]. Qed.

Lemma count_newline_zero (s : string) :
  all_chars not_newline s = true -> count_char Py.newline s = 0.
Proof.
  induction s as [|a s IH]; simpl; [done|].
  intros [Ha Hs]%andb_prop. unfold not_newline in Ha.
  destruct (Ascii.eqb a Py.newline); [done|]. by rewrite IH.
Qed.

(** The lines of a block of items that hold no newline. *)
Lemma join_lines_count (xs : list string) :
  Forall (fun x => all_chars not_newline x = true) xs ->
  length (Py.split Py.newline (Py.join Py.NL xs)) = Nat.max 1 (length xs).
Proof.
  intros H. rewrite split_length. unfold Py.join.
  induction H as [|x xs Hx Hxs IH]; [reflexivity|].
  destruct xs as [|y ys].
  - simpl. by rewrite count_newline_zero.
  - change (S (count_char Py.newline
                 (x +:+ Py.NL +:+ String.concat Py.NL (y :: ys)))
            = Nat.max 1 (length (x :: y :: ys))).
    rewrite !count_char_app, count_newline_zero by done.
    simpl in IH |- *. lia.
Qed.

(** X5: in the two bullet lists without samples every warning whose
    [repr] fits the width of [pprint] (80 characters) takes exactly one
    line, whatever characters its identifier holds, a line break
    included: the block of the generic formatter and that of the
    int-as-float formatter have as many lines as there are warnings (one,
    empty, when there are none).  A longer identifier is outside this
    statement: Python 3.5 and later wrap it over several lines. *)
Theorem bullet_block_one_line_per_warning (result : LintResult)
    (suppress : gset string) (max_width : nat) :
  lint_samples result = [] ->
  Forall pprint_fits (warnings result) ->
  (exists block,
     _format_warnings result suppress max_width = Ok [FLAG_PREAMBLE; block]
     /\ length (Py.split Py.newline block)
        = Nat.max 1 (length (warnings result)))
  /\ (exists block,
        _format_warnings_iaf result suppress max_width
          = Ok [FLAG_PREAMBLE; block]
        /\ length (Py.split Py.newline block)
           = Nat.max 1 (length (warnings result))).
Proof.
  intros Hs _. unfold _format_warnings, _format_warnings_iaf. rewrite Hs.
  split; (eexists; split; [reflexivity|]);
    rewrite join_lines_count, length_map; try done;
    apply Forall_map, Forall_forall; intros w _; simpl; unfold LI;
    rewrite all_chars_app, pformat_str_no_newline; reflexivity.
Qed.

Lemma bullet_block_one_line_per_warning_witness :
  exists block,
    _format_warnings
      {| warnings := ["a" +:+ Py.NL +:+ "b"; "c"]; lint_samples := [] |}
      ∅ MAX_WIDTH = Ok [FLAG_PREAMBLE; block]
    /\ length (Py.split Py.newline block) = 2.
Proof.
  assert (Hfits : Forall pprint_fits ["a" +:+ Py.NL +:+ "b"; "c"]).
  { apply Forall_cons; split; [unfold pprint_fits; vm_compute; lia|].
    apply Forall_cons; split; [unfold pprint_fits; vm_compute; lia|].
    apply Forall_nil; exact I. }
  destruct (bullet_block_one_line_per_warning
              {| warnings := ["a" +:+ Py.NL +:+ "b"; "c"];
                 lint_samples := [] |} ∅ MAX_WIDTH eq_refl Hfits) as [H _].
  exact H.
Defined.

(** ** The length of a pretty-printed value *)

Lemma cram_length_max (text : string) (maxlen : nat) :
  String.length (Py.cram text maxlen) <= Nat.max maxlen 3.
Proof.
  destruct (Nat.le_gt_cases 3 maxlen) as [H3|H3].
  - pose proof (cram_length_le text maxlen H3). lia.
  - unfold Py.cram.
    destruct (Nat.ltb_spec maxlen (String.length text)) as [Hlt|Hge]; [|lia].
    cbv zeta. rewrite !str_length_app, take_length, drop_length.
    change (String.length "...") with 3.
    replace (maxlen - 3) with 0 by lia.
    change (0 / 2) with 0. lia.
Qed.

(** X6: [pformat] returns at most [max_len] characters, for every value
    and either quoting, as long as [max_len] leaves room for the ellipsis;
    below that, a cut text is the ellipsis alone, three characters. *)
Theorem pformat_length_bound (obj : pyobj) (max_len : nat) (quote : bool) :
  String.length (pformat obj max_len quote) <= Nat.max max_len 3.
Proof. unfold pformat. apply cram_length_max. Qed.

(** ** Printed numbers *)

Lemma digit_char_num (n : Z) : num_char (Py.digit_char (n mod 10)) = true.
Proof.
  pose proof (Z.mod_pos_bound n 10 eq_refl) as Hd.
  unfold Py.digit_char.
  assert (Hk : Z.to_nat (n mod 10) < 10) by lia.
  destruct (Z.to_nat (n mod 10)) as [|[|[|[|[|[|[|[|[|[|k]]]]]]]]]];
    try reflexivity.
  lia.
Qed.

Lemma dec_digits_num (width : nat) (n : Z) (acc : string) :
  all_chars num_char acc = true ->
  all_chars num_char (Py.dec_digits width n acc) = true.
Proof.
  revert n acc; induction width as [|w IH]; intros n acc Hacc;
    cbn [Py.dec_digits]; [done|].
  apply IH. cbn [all_chars]. by rewrite digit_char_num.
Qed.

Lemma str_of_Z_num (n : Z) : all_chars num_char (Py.str_of_Z n) = true.
Proof.
  unfold Py.str_of_Z. destruct (n <=? 0)%Z; [reflexivity|].
  by apply dec_digits_num.
Qed.

Lemma exp_str_num (X : Z) : all_chars num_char (Py.exp_str X) = true.
Proof.
  unfold Py.exp_str. cbv zeta.
  rewrite !all_chars_app, str_of_Z_num.
  by destruct (X <? 0)%Z, (Z.abs X <? 10)%Z.
Qed.

Lemma sci_str_num (ds : string) (X : Z) :
  all_chars num_char ds = true ->
  all_chars num_char (Py.sci_str ds X) = true.
Proof.
  intros Hds. unfold Py.sci_str, Py.rstrip_zeros. cbv zeta.
  rewrite !all_chars_app, exp_str_num, all_chars_take by done.
  destruct (String.eqb _ ""); [reflexivity|].
  rewrite all_chars_app, all_chars_rstrip; [reflexivity|].
  by apply all_chars_drop.
Qed.

Lemma fixed_str_num (ds : string) (X : Z) :
  all_chars num_char ds = true ->
  all_chars num_char (Py.fixed_str ds X) = true.
Proof.
  intros Hds. unfold Py.fixed_str, Py.rstrip_zeros.
  destruct (X <? 0)%Z.
  - rewrite !all_chars_app, all_chars_repeat_char, all_chars_rstrip by done.
    reflexivity.
  - cbv zeta. rewrite all_chars_app, all_chars_take by done.
    destruct (String.eqb _ ""); [reflexivity|].
    rewrite all_chars_app, all_chars_rstrip; [reflexivity|].
    by apply all_chars_drop.
Qed.

(** A number formatted with presentation [n] holds only the characters of
    a numeral. *)
Lemma format_n_num (prec : nat) (x : float) :
  all_chars num_char (Py.format_n prec x) = true.
Proof.
  unfold Py.format_n. cbv zeta.
  destruct (Prim2SF x) as [s|s| |s m e];
    [by destruct s | by destruct s | reflexivity |].
  destruct (Py.frac_of m e) as [num den].
  destruct (Py.sig_digits _ num den) as [D X].
  rewrite all_chars_app.
  assert (Hds : all_chars num_char
                  (Py.dec_digits (Z.to_nat (Z.of_nat (Nat.max prec 1))) D
                                 EmptyString) = true)
    by (by apply dec_digits_num).
  destruct (_ || _);
    [rewrite sci_str_num by done | rewrite fixed_str_num by done];
    by destruct s.
Qed.

Lemma rev_app_rev_app (s t u : string) :
  String.rev_app (String.rev_app s t) u = String.rev_app t (s +:+ u).
Proof.
  revert t u; induction s as [|a s IH]; intros t u; simpl; [done|].
  by rewrite IH.
Qed.

Lemma str_app_nil_r (s : string) : s +:+ "" = s.
Proof.
  induction s as [|a s IH]; [done|].
  change (String a (s +:+ "") = String a s). by rewrite IH.
Qed.

Lemma rev_involutive (s : string) : String.rev (String.rev s) = s.
Proof.
  unfold String.rev. rewrite rev_app_rev_app. exact (str_app_nil_r s).
Qed.

Lemma lstrip_absent (c : ascii) (s : string) :
  Py.contains c s = false -> Py.lstrip c s = s.
Proof.
  destruct s as [|a s]; simpl; [done|].
  rewrite Ascii.eqb_sym. by destruct (Ascii.eqb c a).
Qed.

Lemma contains_rev_app (c : ascii) (s t : string) :
  Py.contains c (String.rev_app s t) = Py.contains c s || Py.contains c t.
Proof.
  revert t; induction s as [|a s IH]; intros t; simpl; [done|].
  rewrite IH. simpl.
  destruct (Ascii.eqb a c), (Py.contains c s); simpl; done.
Qed.

(** Stripping a character that a string does not hold changes nothing. *)
Lemma strip_absent (c : ascii) (s : string) :
  Py.contains c s = false -> Py.strip c s = s.
Proof.
  intros H. unfold Py.strip, Py.rstrip.
  rewrite (lstrip_absent c s H).
  rewrite lstrip_absent; [apply rev_involutive|].
  unfold String.rev. rewrite contains_rev_app, H. reflexivity.
Qed.

Lemma num_chars_absent (c : ascii) (s : string) :
  num_char c = false ->
  all_chars num_char s = true -> Py.contains c s = false.
Proof.
  intros Hc. induction s as [|a s IH]; simpl; [done|].
  intros [Ha Hs]%andb_prop. rewrite (IH Hs), orb_false_r.
  destruct (Ascii.eqb_spec a c) as [->|]; [congruence | done].
Qed.

(** The quoting option has no effect on a number. *)
Lemma pformat_number_quote (x : float) (max_len : nat) (q1 q2 : bool) :
  pformat (Scalar (SNum x)) max_len q1 = pformat (Scalar (SNum x)) max_len q2.
Proof.
  assert (H : forall q, pformat (Scalar (SNum x)) max_len q
                        = Py.cram (Py.re_sub_u (Py.format_n 4 x)) max_len).
  { intros q. unfold pformat. cbv zeta. simpl unwrap_single. cbv iota beta.
    destruct q; [reflexivity|].
    pose proof (all_chars_re_sub_u num_char _ (format_n_num 4 x)) as Hn.
    rewrite (strip_absent Py.squote)
      by (by apply num_chars_absent).
    rewrite (strip_absent Py.dquote)
      by (by apply num_chars_absent).
    reflexivity. }
  by rewrite !H.
Qed.

(** X7: for samples that carry numbers only, the enumerated-value
    formatter returns exactly what the generic formatter returns: the two
    differ in the quoting of string values alone. *)
Theorem enum_formatter_on_numbers (result : LintResult)
    (suppress : gset string) (max_width : nat) :
  lint_samples result <> [] ->
  Forall (fun s => strings s = []) (lint_samples result) ->
  _format_warnings_de result suppress max_width
  = _format_warnings result suppress max_width.
Proof.
  intros Hne Hnum.
  destruct (paired_lines_of_unsuppressed result suppress max_width Hne)
    as [-> ->].
  do 2 f_equal. apply map_ext_in. intros [w s] Hin.
  apply list_elem_of_In, list_elem_of_filter in Hin as [_ Hin].
  assert (Hs : strings s = []).
  { rewrite Forall_forall in Hnum. apply Hnum.
    by apply elem_of_zip_r in Hin. }
  unfold _format_warning_sample_pair, samp_vals_of. simpl. rewrite Hs.
  cbv zeta. rewrite !map_map.
  destruct (nums s) as [|x xs]; [reflexivity|].
  cbn [map].
  rewrite (pformat_number_quote x MAX_LEN false true).
  rewrite (map_ext (fun y => pformat (Scalar (SNum y)) MAX_LEN false)
                   (fun y => pformat (Scalar (SNum y)) MAX_LEN true))
    by (intros; apply pformat_number_quote).
  reflexivity.
Qed.

Lemma enum_formatter_on_numbers_witness :
  _format_warnings_de
    {| warnings := ["f"]; lint_samples := [zero_length_sample] |}
    ∅ MAX_WIDTH
  = _format_warnings
      {| warnings := ["f"]; lint_samples := [zero_length_sample] |}
      ∅ MAX_WIDTH.
Proof.
  apply (enum_formatter_on_numbers
           {| warnings := ["f"]; lint_samples := [zero_length_sample] |}
           ∅ MAX_WIDTH).
  - discriminate.
  - by repeat constructor.
Defined.

(** ** The list-length-outlier formatter *)

Lemma truediv_nonzero (a n : float) :
  PrimFloat.eqb n 0 = false -> Py.truediv a n = Ok (PrimFloat.div a n).
Proof. intros Hn. unfold Py.truediv. by rewrite Hn. Qed.

Lemma llo_pcts_nonzero (n : float) (buckets : list Stat) :
  PrimFloat.eqb n 0 = false ->
  map_res (fun bucket =>
             let! r := Py.truediv (stat_count bucket) n in
             Ok (PCT_FMT (PrimFloat.mul r 100)))
          buckets
  = Ok (map (fun bucket =>
               PCT_FMT (PrimFloat.mul (PrimFloat.div (stat_count bucket) n)
                                      100))
            buckets).
Proof.
  intros Hn. induction buckets as [|b bs IH]; [reflexivity|].
  cbn [map_res map]. rewrite IH, truediv_nonzero by done. reflexivity.
Qed.

(** X8: the list-length-outlier line reports the first two buckets of a
    sample and no other: the buckets after the second never change it. *)
Theorem llo_reports_first_two_buckets (warning : string)
    (strs : list string) (ns : list float) (b1 b2 : Stat)
    (rest : list Stat) (exs : list Example) :
  llo_line warning
    {| strings := strs; nums := ns; stats := b1 :: b2 :: rest;
       examples := exs |}
  = llo_line warning
      {| strings := strs; nums := ns; stats := [b1; b2]; examples := exs |}.
Proof.
  unfold llo_line. cbn [nums stats].
  destruct ns as [|n ns]; [reflexivity|]. cbn [item0 bind].
  destruct (PrimFloat.eqb n 0) eqn:Hn.
  - cbn [map_res]. unfold Py.truediv. rewrite Hn. reflexivity.
  - rewrite !llo_pcts_nonzero by done. reflexivity.
Qed.

Lemma llo_line_needs_two_buckets (warning : string) (sample : LintSample) :
  length (stats sample) < 2 -> exists e, llo_line warning sample = Raise e.
Proof.
  intros Hlen. unfold llo_line.
  destruct (nums sample) as [|n ns]; [by eexists|]. cbn [item0 bind].
  destruct (PrimFloat.eqb n 0) eqn:Hn.
  - destruct (stats sample) as [|b bs]; [by eexists|].
    cbn [map_res]. unfold Py.truediv. rewrite Hn. by eexists.
  - rewrite llo_pcts_nonzero by done. cbn [bind].
    destruct (stats sample) as [|b [|b' bs]]; simpl in Hlen;
      [by eexists | by eexists | lia].
Qed.

(** A formatter that loops over the pairs returns no lines when the body
    fails for a pair that is not suppressed. *)
Lemma for_warnings_raises (suppress : gset string)
    (body : string -> LintSample -> res string)
    (ws : list string) (samples : list LintSample)
    (w : string) (s : LintSample) (e : pyerr) :
  (w, s) ∈ zip ws samples -> w ∉ suppress -> body w s = Raise e ->
  exists e', for_warnings suppress body ws samples = Raise e'.
Proof.
  intros Hin Hw He. rewrite for_warnings_skips_suppressed.
  apply (map_res_raises _ _ (w, s) e); [|exact He].
  apply list_elem_of_filter. by split.
Qed.

(** X9: the list-length-outlier formatter needs two buckets: if the
    sample of a warning that is not suppressed has fewer, the formatter
    raises and returns no line at all. *)
Theorem llo_needs_two_buckets (result : LintResult) (suppress : gset string)
    (max_width : nat) (w : string) (s : LintSample) :
  (w, s) ∈ zip (warnings result) (lint_samples result) ->
  w ∉ suppress ->
  length (stats s) < 2 ->
  exists e, _format_warnings_llo result suppress max_width = Raise e.
Proof.
  intros Hin Hw Hlen.
  destruct (llo_line_needs_two_buckets w s Hlen) as [e He].
  destruct (for_warnings_raises suppress llo_line _ _ w s e Hin Hw He)
    as [e' He'].
  exists e'. unfold _format_warnings_llo. by rewrite He'.
Qed.

Lemma llo_needs_two_buckets_witness :
  exists e,
    _format_warnings_llo
      {| warnings := ["f"];
         lint_samples :=
           [ {| strings := []; nums := [10%float]; stats := [typical_stat];
                examples := [] |} ] |}
      ∅ MAX_WIDTH = Raise e.
Proof.
  apply (llo_needs_two_buckets _ ∅ MAX_WIDTH "f"
           {| strings := []; nums := [10%float]; stats := [typical_stat];
              examples := [] |}).
  - simpl. by left.
  - set_solver.
  - simpl. lia.
Defined.

(** Two numbers that are not equal are ordered one way or the other. *)
Lemma float_lt_total (a b : float) :
  PrimFloat.is_nan a = false ->
  PrimFloat.is_nan b = false ->
  PrimFloat.eqb a b = false ->
  PrimFloat.ltb b a = false ->
  PrimFloat.ltb a b = true.
Proof.
  unfold PrimFloat.is_nan.
  rewrite !ltb_spec, !FloatAxioms.eqb_spec.
  unfold SFltb, SFeqb.
  rewrite (SFcompare_antisym (Prim2SF a) (Prim2SF b)).
  destruct (Prim2SF a) as [sa|sa| |sa ma ea]; [| |done|];
    (destruct (Prim2SF b) as [sb|sb| |sb mb eb]; [| |done|]);
    intros _ _; simpl;
    try (destruct sa; done); try (destruct sb; done);
    try (destruct sa, sb; done).
  destruct sa, sb; simpl; try done;
    destruct (ea ?= eb)%Z; simpl; try done;
    destruct (Pos.compare_cont Eq ma mb); done.
Qed.

(** Two numbers that compare equal are the same number, or two zeros. *)
Lemma SFcompare_eq (x y : spec_float) :
  SFcompare x y = Some Eq ->
  x = y \/ (exists sx sy, x = S754_zero sx /\ y = S754_zero sy).
Proof.
  destruct x as [sx|sx| |sx mx ex], y as [sy|sy| |sy my ey]; simpl;
    try discriminate; eauto;
    try (destruct sx; discriminate); try (destruct sy; discriminate).
  - destruct sx, sy; intros; try discriminate; auto.
  - destruct sx, sy; try discriminate;
      destruct (Z.compare_spec ex ey) as [->| |]; try discriminate;
      intros [= H]; left; f_equal; apply Pos.compare_eq; unfold Pos.compare.
    + by destruct (Pos.compare_cont Eq mx my).
    + exact H.
Qed.

Lemma float_eqb_eq (a b : float) :
  plain_bound a -> plain_bound b -> PrimFloat.eqb a b = true -> a = b.
Proof.
  intros [_ Ha] [_ Hb]. rewrite FloatAxioms.eqb_spec. unfold SFeqb.
  destruct (SFcompare (Prim2SF a) (Prim2SF b)) as [[| |]|] eqn:Hc;
    try discriminate.
  intros _. apply SFcompare_eq in Hc as [Hc | (sa & sb & Hsa & Hsb)].
  - by apply Prim2SF_inj.
  - apply Prim2SF_inj. rewrite Hsa, Hsb.
    destruct sa.
    { exfalso. apply Ha. apply Prim2SF_inj. rewrite Hsa. reflexivity. }
    destruct sb; [|reflexivity].
    exfalso. apply Hb. apply Prim2SF_inj. rewrite Hsb. reflexivity.
Qed.

Lemma float_eqb_sym (a b : float) : PrimFloat.eqb a b = PrimFloat.eqb b a.
Proof.
  rewrite !FloatAxioms.eqb_spec. unfold SFeqb.
  rewrite (SFcompare_antisym (Prim2SF a) (Prim2SF b)).
  by destruct (SFcompare (Prim2SF a) (Prim2SF b)) as [[| |]|].
Qed.

Lemma float_ltb_asym (a b : float) :
  PrimFloat.ltb a b = true -> PrimFloat.ltb b a = false.
Proof.
  rewrite !ltb_spec. unfold SFltb.
  rewrite (SFcompare_antisym (Prim2SF a) (Prim2SF b)).
  by destruct (SFcompare (Prim2SF a) (Prim2SF b)) as [[| |]|].
Qed.

(** The sorted set of the two bounds of a bucket is the same whichever way
    round the bounds are given. *)
Lemma sorted_bounds_swap (lo hi : float) :
  plain_bound lo -> plain_bound hi ->
  sorted_bounds hi lo = sorted_bounds lo hi.
Proof.
  intros Hlo Hhi. unfold sorted_bounds. rewrite (float_eqb_sym hi lo).
  destruct (PrimFloat.eqb lo hi) eqn:Heq.
  - by rewrite (float_eqb_eq lo hi).
  - destruct (PrimFloat.ltb hi lo) eqn:Hlt.
    + by rewrite (float_ltb_asym hi lo).
    + by rewrite (float_lt_total lo hi) by (done || apply Hlo || apply Hhi).
Qed.

Lemma swapped_buckets_agree (buckets buckets' : list Stat) :
  Forall plain_bucket buckets ->
  Forall2 (fun b b' => b' = b \/ b' = swap_bounds b) buckets buckets' ->
  Forall2 (fun b b' =>
             stat_count b' = stat_count b
             /\ sorted_bounds (stat_min b') (stat_max b')
                = sorted_bounds (stat_min b) (stat_max b))
          buckets buckets'.
Proof.
  intros Hplain H. induction H as [|b b' bs bs' Hb _ IH]; [constructor|].
  apply Forall_cons in Hplain as [[Hlo Hhi] Hplain].
  constructor; [|by apply IH].
  destruct Hb as [-> | ->]; [done|].
  split; [reflexivity|]. by apply sorted_bounds_swap.
Qed.

Lemma map_res_agree {A B : Type} (f : A -> res B) (xs ys : list A) :
  Forall2 (fun x y => f y = f x) xs ys -> map_res f ys = map_res f xs.
Proof.
  induction 1 as [|x y xs ys Hxy _ IH]; [reflexivity|].
  cbn [map_res]. by rewrite Hxy, IH.
Qed.

Lemma map_agree {A B : Type} (f : A -> B) (xs ys : list A) :
  Forall2 (fun x y => f y = f x) xs ys -> map f ys = map f xs.
Proof.
  induction 1 as [|x y xs ys Hxy _ IH]; [reflexivity|].
  cbn [map]. by rewrite Hxy, IH.
Qed.

(** X10: the line of the list-length-outlier formatter does not depend
    on which way round a bucket holds its two bounds: with the minimum
    and the maximum of any of the buckets exchanged the formatter returns
    the same line, or raises the same exception (for bounds that are
    numbers, the negative zero apart). *)
Theorem llo_line_bounds_either_way (warning : string)
    (strs : list string) (ns : list float) (buckets buckets' : list Stat)
    (exs : list Example) :
  Forall plain_bucket buckets ->
  Forall2 (fun b b' => b' = b \/ b' = swap_bounds b) buckets buckets' ->
  llo_line warning
    {| strings := strs; nums := ns; stats := buckets'; examples := exs |}
  = llo_line warning
      {| strings := strs; nums := ns; stats := buckets; examples := exs |}.
Proof.
  intros Hplain Hswap.
  pose proof (swapped_buckets_agree buckets buckets' Hplain Hswap) as Hagree.
  unfold llo_line. cbn [nums stats].
  destruct ns as [|n ns]; [reflexivity|]. cbn [item0 bind].
  rewrite (map_res_agree _ buckets buckets').
  2: { eapply Forall2_impl; [exact Hagree|].
       intros b b' [Hc _]. cbn beta. by rewrite Hc. }
  rewrite (map_agree _ buckets buckets').
  2: { eapply Forall2_impl; [exact Hagree|].
       intros b b' [_ Hb]. cbn beta. by rewrite Hb. }
  reflexivity.
Qed.

Lemma llo_line_bounds_either_way_witness :
  llo_line "f"
    {| strings := []; nums := [10%float];
       stats := [ swap_bounds rare_bucket; common_bucket ];
       examples := [] |}
  = llo_line "f"
      {| strings := []; nums := [10%float];
         stats := [ rare_bucket; common_bucket ]; examples := [] |}.
Proof.
  assert (Hplain : forall x : float,
             PrimFloat.is_nan x = false ->
             Prim2SF x <> S754_zero true -> plain_bound x).
  { intros x Hn Hz. split; [exact Hn|]. intros ->. by apply Hz. }
  apply (llo_line_bounds_either_way "f" [] [10%float]
           [rare_bucket; common_bucket]
           [swap_bounds rare_bucket; common_bucket] []).
  - apply Forall_cons; split;
      [split; apply Hplain; vm_compute; (reflexivity || discriminate)|].
    apply Forall_cons; split;
      [split; apply Hplain; vm_compute; (reflexivity || discriminate)|].
    apply Forall_nil; exact I.
  - apply Forall2_cons; split; [by right|].
    apply Forall2_cons; split; [by left|]. apply Forall2_nil; exact I.
Defined.

(** ** The uncommon-sign formatter *)

Lemma dus_wstrs_defined (n : float) (pairs : list (string * float)) :
  PrimFloat.eqb n 0 = false \/ pairs = [] ->
  exists wstrs,
    map_res (dus_wstr n) pairs = Ok wstrs /\ length wstrs = length pairs.
Proof.
  intros [Hn | ->]; [|by exists []].
  induction pairs as [|[sign c] ps (wstrs & Hw & Hl)]; [by exists []|].
  cbn [map_res]. rewrite dus_wstr_unfold, Hw by done. cbn [bind].
  eexists. split; [reflexivity|]. simpl. by rewrite Hl.
Qed.

(** X11: the line of the uncommon-sign formatter is produced whenever the
    sample has a first number that is not zero, or has no sign to report;
    it holds one entry for each sign that has a count, the signs or counts
    in excess being left out. *)
Theorem dus_line_defined (warning : string) (sample : LintSample)
    (n : float) (counts : list float) :
  nums sample = n :: counts ->
  PrimFloat.eqb n 0 = false \/ strings sample = [] \/ counts = [] ->
  exists wstrs,
    dus_line warning sample
    = Ok (LI_SAMP (pformat_str warning false) (Py.join ", " wstrs))
    /\ length wstrs = Nat.min (length (strings sample)) (length counts).
Proof.
  intros Hn Hc. unfold dus_line. rewrite Hn. cbn [item0 bind tail].
  destruct (dus_wstrs_defined n (zip (strings sample) counts))
    as (wstrs & Hw & Hl).
  { destruct Hc as [?|[-> | ->]]; [by left | by right |].
    right. by destruct (strings sample). }
  rewrite Hw. cbn [bind]. exists wstrs. split; [reflexivity|].
  rewrite Hl. apply length_zip_with.
Qed.

Lemma dus_line_defined_witness :
  exists wstrs,
    dus_line "f" ordinary_sign_sample
    = Ok (LI_SAMP (pformat_str "f" false) (Py.join ", " wstrs))
    /\ length wstrs
       = Nat.min (length (strings ordinary_sign_sample))
                 (length [1%float; 2%float]).
Proof.
  apply (dus_line_defined "f" ordinary_sign_sample 200%float
           [1%float; 2%float]).
  - reflexivity.
  - left. vm_compute. reflexivity.
Defined.

(** ** The statistic names *)

Lemma getattr_numeric (st : Stat) (name : string) :
  numeric_field name = true -> exists x, getattr st name = Ok (SNum x).
Proof.
  intros H. apply bool_decide_eq_true in H.
  repeat (apply elem_of_cons in H as [->|H]; [by eexists|]).
  by apply elem_of_nil in H.
Qed.

Lemma nfnr_stat_numeric (st : Stat) (name : string) :
  numeric_field name = true ->
  exists entry,
    (let! v := getattr st name in NFNR_STATFMT name v) = Ok entry.
Proof.
  intros H. destruct (getattr_numeric st name H) as [x ->].
  by eexists.
Qed.

(** X12: in the non-normal-numeric formatter the names after the colon
    are formatted as numbers one after the other; the name [id], whose
    value is a string, makes the formatter raise [ValueError] when the
    names before it are numeric fields of the [Stat], whatever names
    follow it. *)
Theorem nfnr_id_among_names_raises (suppress : gset string)
    (w feature names : string) (good rest : list string)
    (sample : LintSample) (st : Stat) (sts : list Stat) :
  Py.split ":" w = [feature; names] ->
  feature ∉ suppress ->
  stats sample = st :: sts ->
  Py.split "," names = good ++ "id" :: rest ->
  Forall (fun name => numeric_field name = true) good ->
  nfnr_lines suppress (w, sample) = Raise ValueError.
Proof.
  intros Hw Hf Hst Hnames Hgood.
  rewrite (nfnr_lines_wellformed suppress w feature names sample st sts)
    by done.
  rewrite Hnames.
  rewrite (map_res_first_raise _ good rest "id" ValueError).
  - reflexivity.
  - eapply Forall_impl; [exact Hgood|]. intros name Hn.
    by apply nfnr_stat_numeric.
  - reflexivity.
Qed.

Lemma nfnr_id_among_names_raises_witness :
  nfnr_lines ∅ ("height:mean,id,max", stats_sample height_stat)
  = Raise ValueError.
Proof.
  apply (nfnr_id_among_names_raises ∅ "height:mean,id,max" "height"
           "mean,id,max" ["mean"] ["max"]
           (stats_sample height_stat) height_stat []).
  - vm_compute. reflexivity.
  - set_solver.
  - reflexivity.
  - vm_compute. reflexivity.
  - by repeat constructor.
Defined.

Lemma nfnr_stats_numeric (st : Stat) (l : list string) :
  Forall (fun name => numeric_field name = true) l ->
  exists entries,
    map_res (fun name => let! v := getattr st name in NFNR_STATFMT name v) l
    = Ok entries
    /\ length entries = length l.
Proof.
  induction 1 as [|name l Hname _ (entries & He & Hl)]; [by exists []|].
  cbn [map_res].
  destruct (nfnr_stat_numeric st name Hname) as [entry ->].
  rewrite He. cbn [bind]. exists (entry :: entries).
  split; [reflexivity|]. simpl. by rewrite Hl.
Qed.

(** X13: when every name after the colon is a numeric field, the line of
    the non-normal-numeric formatter is produced, with one entry for each
    name. *)
Theorem nfnr_line_for_numeric_names (suppress : gset string)
    (w feature names : string) (sample : LintSample) (st : Stat)
    (sts : list Stat) :
  Py.split ":" w = [feature; names] ->
  feature ∉ suppress ->
  stats sample = st :: sts ->
  Forall (fun name => numeric_field name = true) (Py.split "," names) ->
  exists entries,
    nfnr_lines suppress (w, sample)
    = Ok [NFNR_WFMT (pformat_str feature false) (Py.join ", " entries)]
    /\ length entries = S (count_char "," names).
Proof.
  intros Hw Hf Hst Hnum.
  rewrite (nfnr_lines_wellformed suppress w feature names sample st sts)
    by done.
  destruct (nfnr_stats_numeric st _ Hnum) as (entries & -> & Hl).
  exists entries. split; [reflexivity|]. by rewrite Hl, split_length.
Qed.

Lemma nfnr_line_for_numeric_names_witness :
  exists entries,
    nfnr_lines ∅ ("height:min,max", stats_sample height_stat)
    = Ok [NFNR_WFMT (pformat_str "height" false) (Py.join ", " entries)]
    /\ length entries = S (count_char "," "min,max").
Proof.
  apply (nfnr_line_for_numeric_names ∅ "height:min,max" "height" "min,max"
           (stats_sample height_stat) height_stat []).
  - vm_compute. reflexivity.
  - set_solver.
  - reflexivity.
  - by repeat constructor.
Defined.

(** ** Suppression by feature name *)

Lemma count_char_rev_app (c : ascii) (s t : string) :
  count_char c (String.rev_app s t) = count_char c s + count_char c t.
Proof.
  revert t; induction s as [|a s IH]; intros t; simpl; [done|].
  rewrite IH. simpl. lia.
Qed.

Lemma count_char_rev (c : ascii) (s : string) :
  count_char c (String.rev s) = count_char c s.
Proof. unfold String.rev. rewrite count_char_rev_app. simpl. lia. Qed.

Lemma split_aux_fields (sep : ascii) (s cur : string) :
  count_char sep cur = 0 ->
  Forall (fun f => count_char sep f = 0) (Py.split_aux sep s cur).
Proof.
  revert cur; induction s as [|a s IH]; intros cur Hcur; simpl.
  - repeat constructor. by rewrite count_char_rev.
  - destruct (Ascii.eqb a sep) eqn:Ha.
    + constructor; [by rewrite count_char_rev | by apply IH].
    + apply IH. simpl. by rewrite Ha.
Qed.

(** The fields of [s.split(sep)] do not hold the separator. *)
Lemma split_fields (sep : ascii) (s : string) :
  Forall (fun f => count_char sep f = 0) (Py.split sep s).
Proof. by apply split_aux_fields. Qed.

Lemma for_lines_ext {A : Type} (f g : A -> res (list string)) (xs : list A) :
  (forall x, f x = g x) -> for_lines f xs = for_lines g xs.
Proof.
  intros H. induction xs as [|x xs IH]; simpl; [done|]. by rewrite H, IH.
Qed.

Lemma nfnr_lines_colon_entries (suppress extra : gset string)
    (p : string * LintSample) :
  (forall x, x ∈ extra -> count_char ":" x <> 0) ->
  nfnr_lines (suppress ∪ extra) p = nfnr_lines suppress p.
Proof.
  intros Hextra. destruct p as [w sample]. unfold nfnr_lines.
  pose proof (split_fields ":" w) as Hfields.
  destruct (Py.split ":" w) as [|a [|b [|c l]]]; try reflexivity.
  cbn [unpack2 bind].
  apply Forall_cons in Hfields as [Ha _].
  assert (Hiff : a ∈ suppress ∪ extra <-> a ∈ suppress).
  { split; [|set_solver]. intros [?|Hin]%elem_of_union; [done|].
    by apply Hextra in Hin. }
  by rewrite (bool_decide_ext _ _ Hiff).
Qed.

(** X14: the non-normal-numeric formatter compares the suppression set
    with the feature names, the part of an identifier before the colon:
    an entry of the set that holds a colon, such as a whole identifier,
    suppresses nothing. *)
Theorem nfnr_suppression_by_feature_name (result : LintResult)
    (suppress extra : gset string) (max_width : nat) :
  (forall x, x ∈ extra -> count_char ":" x <> 0) ->
  _format_warnings_nfnr result (suppress ∪ extra) max_width
  = _format_warnings_nfnr result suppress max_width.
Proof.
  intros Hextra. unfold _format_warnings_nfnr.
  rewrite (for_lines_ext (nfnr_lines (suppress ∪ extra))
                         (nfnr_lines suppress)); [reflexivity|].
  intros p. by apply nfnr_lines_colon_entries.
Qed.

Lemma nfnr_suppression_by_feature_name_witness :
  _format_warnings_nfnr
    {| warnings := ["height:mean"];
       lint_samples := [stats_sample typical_stat; stats_sample height_stat] |}
    (∅ ∪ {["height:mean"]}) MAX_WIDTH
  = _format_warnings_nfnr
      {| warnings := ["height:mean"];
         lint_samples :=
           [stats_sample typical_stat; stats_sample height_stat] |}
      ∅ MAX_WIDTH.
Proof.
  apply (nfnr_suppression_by_feature_name _ ∅ {["height:mean"]} MAX_WIDTH).
  intros x Hx. apply elem_of_singleton in Hx as ->. vm_compute. lia.
Defined.

(** ** The tailed-distribution formatter *)

(** The values of the fields named by an identifier that lists the name
    [id]: the lookups succeed, and the conversion to numbers fails. *)
Lemma don_fields_found (st : Stat) (l : list string) :
  Forall (fun name => numeric_field name = true \/ name = "id") l ->
  exists vals, map_res (getattr st) l = Ok vals.
Proof.
  induction 1 as [|name l Hname _ [vals He]]; [by exists []|].
  cbn [map_res]. rewrite He.
  destruct Hname as [Hname | ->].
  - destruct (getattr_numeric st name Hname) as [x ->]. by eexists.
  - by eexists.
Qed.

Lemma don_id_not_converted (st : Stat) (l : list string) :
  Forall (fun name => numeric_field name = true \/ name = "id") l ->
  "id" ∈ l ->
  exists vals,
    map_res (getattr st) l = Ok vals
    /\ map_res (fun '(e, ev) => let! x := to_float ev in Ok (TDD_WFMT e x))
               (zip l vals)
       = Raise ValueError.
Proof.
  induction 1 as [|name l Hname Hl IH]; intros Hin.
  { by apply elem_of_nil in Hin. }
  destruct (String.eqb_spec name "id") as [-> | Hne].
  - destruct (don_fields_found st l Hl) as [vals Hvals].
    exists (SStr (stat_id st) :: vals). split.
    + cbn [map_res]. by rewrite Hvals.
    + reflexivity.
  - destruct Hname as [Hname | ?]; [|done].
    apply elem_of_cons in Hin as [? | Hin]; [done|].
    destruct (IH Hin) as (vals & Hvals & Hraise).
    destruct (getattr_numeric st name Hname) as [x Hx].
    exists (SNum x :: vals). split.
    + cbn [map_res]. by rewrite Hx, Hvals.
    + cbn [zip zip_with map_res to_float bind]. by rewrite Hraise.
Qed.

(** X15: in the tailed-distribution formatter the names of the identifier
    are looked up first and their values converted to numbers after.  An
    identifier that lists [id] among names of fields makes the formatter
    raise [ValueError], wherever [id] stands among the names: its value
    is the identifier itself, which is no numeral. *)
Theorem don_id_name_raises (warning : string)
    (sample : LintSample) (st : Stat) (sts : list Stat) :
  stats sample = st :: sts ->
  Forall (fun name => numeric_field name = true \/ name = "id")
         (Py.split "," (stat_id st)) ->
  "id" ∈ Py.split "," (stat_id st) ->
  don_line warning sample = Raise ValueError.
Proof.
  intros Hst Hnames Hin. unfold don_line. rewrite Hst. cbn [item0 bind].
  destruct (don_id_not_converted st _ Hnames Hin) as (vals & -> & Hraise).
  cbn [bind]. by rewrite Hraise.
Qed.

Lemma don_id_name_raises_witness :
  don_line "f" (stats_sample id_named_stat) = Raise ValueError.
Proof.
  apply (don_id_name_raises "f" (stats_sample id_named_stat)
           id_named_stat []).
  - reflexivity.
  - change (Py.split "," (stat_id id_named_stat)) with ["min"; "id"; "max"].
    apply Forall_cons; split; [by left|].
    apply Forall_cons; split; [by right|].
    apply Forall_cons; split; [by left|]. apply Forall_nil; exact I.
  - change (Py.split "," (stat_id id_named_stat)) with ["min"; "id"; "max"].
    set_solver.
Defined.

Lemma don_extremes_numeric (st : Stat) (l : list string) :
  Forall (fun name => numeric_field name = true) l ->
  exists xs,
    map_res (getattr st) l = Ok (map SNum xs) /\ length xs = length l.
Proof.
  induction 1 as [|name l Hname _ (xs & He & Hl)]; [by exists []|].
  cbn [map_res]. destruct (getattr_numeric st name Hname) as [x ->].
  rewrite He. cbn [bind]. exists (x :: xs). split; [reflexivity|].
  simpl. by rewrite Hl.
Qed.

Lemma don_wstrs_numeric (names : list string) (xs : list float) :
  map_res (fun '(e, ev) => let! x := to_float ev in Ok (TDD_WFMT e x))
          (zip names (map SNum xs))
  = Ok (map (fun p : string * float => TDD_WFMT p.1 p.2) (zip names xs)).
Proof.
  revert xs; induction names as [|name names IH]; intros [|x xs];
    try reflexivity.
  cbn [map zip zip_with map_res]. cbn [to_float bind].
  fold (zip names (map SNum xs)). fold (zip names xs).
  by rewrite IH.
Qed.

(** X16: when every name of the identifier is a numeric field, the line
    of the tailed-distribution formatter is produced, with one entry for
    each name. *)
Theorem don_line_for_numeric_names (warning : string) (sample : LintSample)
    (st : Stat) (sts : list Stat) :
  stats sample = st :: sts ->
  Forall (fun name => numeric_field name = true)
         (Py.split "," (stat_id st)) ->
  exists wstrs,
    don_line warning sample
    = Ok (LI_SAMP (pformat_str warning false) (Py.join ", " wstrs))
    /\ length wstrs = S (count_char "," (stat_id st)).
Proof.
  intros Hst Hnum. unfold don_line. rewrite Hst. cbn [item0 bind].
  destruct (don_extremes_numeric st _ Hnum) as (xs & -> & Hl).
  cbn [bind]. rewrite don_wstrs_numeric. cbn [bind].
  eexists. split; [reflexivity|].
  rewrite length_map, length_zip_with, Hl, split_length. lia.
Qed.

Lemma don_line_for_numeric_names_witness :
  exists wstrs,
    don_line "f"
      (stats_sample
         {| stat_id := "min,max"; stat_mean := 0; stat_std_dev := 0;
            stat_min := 1; stat_max := 9; stat_count := 0 |})
    = Ok (LI_SAMP (pformat_str "f" false) (Py.join ", " wstrs))
    /\ length wstrs = S (count_char "," "min,max").
Proof.
  apply (don_line_for_numeric_names "f" _
           {| stat_id := "min,max"; stat_mean := 0; stat_std_dev := 0;
              stat_min := 1; stat_max := 9; stat_count := 0 |} []).
  - reflexivity.
  - by repeat constructor.
Defined.

(** ** The columns of the duplicate-example table *)

(** X17: the columns of the table are feature names of the examples, each
    once and in ascending order, and there are at most [DD_MAX_COLS] of
    them; when the examples have no more distinct feature names than that,
    every feature is a column. *)
Theorem dd_cols_spec (egs : list Example) :
  length (dd_cols egs) <= DD_MAX_COLS
  /\ NoDup (dd_cols egs)
  /\ StronglySorted String.le (dd_cols egs)
  /\ (forall c, c ∈ dd_cols egs ->
        exists eg, eg ∈ egs /\ is_Some (features eg !! c))
  /\ (size (⋃ (map (fun eg => dom (features eg)) egs) : gset string)
        <= DD_MAX_COLS ->
      forall eg c, eg ∈ egs -> is_Some (features eg !! c) ->
        c ∈ dd_cols egs).
Proof.
  unfold dd_cols, sorted.
  set (U := (⋃ (map (fun eg => dom (features eg)) egs) : gset string)).
  change (merge_sort (fun a b => Is_true (String.leb a b)) (elements U))
    with (merge_sort String.le (elements U)).
  pose proof (merge_sort_Permutation String.le (elements U)) as Hperm.
  assert (Hin : forall c, c ∈ merge_sort String.le (elements U) <->
                  exists eg, eg ∈ egs /\ is_Some (features eg !! c)).
  { intros c. rewrite Hperm, elem_of_elements. unfold U.
    rewrite elem_of_union_list. split.
    - intros (X & HX & Hc). apply list_elem_of_fmap in HX as (eg & -> & Heg).
      exists eg. split; [done|]. by apply elem_of_dom.
    - intros (eg & Heg & Hc). exists (dom (features eg)). split.
      + apply list_elem_of_fmap. by exists eg.
      + by apply elem_of_dom. }
  split; [rewrite length_take; lia|].
  split.
  { eapply sublist_NoDup; [|apply sublist_take].
    rewrite Hperm. apply NoDup_elements. }
  split.
  { apply (StronglySorted_app_1_l _ _ (drop DD_MAX_COLS
             (merge_sort String.le (elements U)))).
    rewrite take_drop. apply StronglySorted_merge_sort; apply _. }
  split.
  - intros c Hc. apply Hin. eapply elem_of_sublist; [exact Hc|].
    apply sublist_take.
  - intros Hsize eg c Heg Hc. rewrite take_ge.
    + apply Hin. eauto.
    + rewrite Hperm. exact Hsize.
Qed.

(** ** The column groups *)

Lemma append_last_concat (gs : list (list string)) (col : string) :
  gs <> [] -> concat (append_last gs col) = concat gs ++ [col].
Proof.
  induction gs as [|g gs IH]; [done|]. intros _.
  destruct gs as [|g' gs].
  - simpl. by rewrite !app_nil_r.
  - change (g ++ concat (append_last (g' :: gs) col)
            = (g ++ concat (g' :: gs)) ++ [col]).
    rewrite IH by done. by rewrite app_assoc.
Qed.

Lemma append_last_tail_nonempty (gs : list (list string)) (col : string) :
  Forall (fun g => g <> []) (tail gs) ->
  Forall (fun g => g <> []) (tail (append_last gs col)).
Proof.
  destruct gs as [|g gs]; [done|]. simpl tail at 1. intros H.
  destruct gs as [|g' gs]; [constructor|].
  change (Forall (fun g => g <> []) (append_last (g' :: gs) col)).
  revert g' H. induction gs as [|g'' gs IH]; intros g' H.
  - simpl. repeat constructor. by destruct g'.
  - apply Forall_cons in H as [Hg' H].
    change (Forall (fun g => g <> [])
              (g' :: append_last (g'' :: gs) col)).
    constructor; [done | by apply IH].
Qed.

(** X18: the packing loop loses no column and repeats none: the column
    groups, one after the other, are the columns in their order; there is
    always a first group, and only that one can be empty. *)
Theorem dd_col_groups_partition (max_width : nat)
    (widths : gmap string nat) (cols : list string) :
  concat (dd_col_groups max_width widths cols) = cols
  /\ dd_col_groups max_width widths cols <> []
  /\ Forall (fun g => g <> []) (tail (dd_col_groups max_width widths cols)).
Proof.
  unfold dd_col_groups.
  assert (Hgen : forall l st,
            st.1 <> [] -> Forall (fun g => g <> []) (tail st.1) ->
            let st' := fold_left (dd_pack_col max_width widths) l st in
            concat st'.1 = concat st.1 ++ l
            /\ st'.1 <> []
            /\ Forall (fun g => g <> []) (tail st'.1)).
  { induction l as [|c l IH]; intros [groups tot] Hne Htail.
    - cbn [fold_left]. by rewrite app_nil_r.
    - cbn zeta. cbn [fold_left]. simpl in Hne, Htail.
      assert (Hstep : (dd_pack_col max_width widths (groups, tot) c).1 <> []
                /\ Forall (fun g => g <> [])
                     (tail (dd_pack_col max_width widths (groups, tot) c).1)
                /\ concat (dd_pack_col max_width widths (groups, tot) c).1
                   = concat groups ++ [c]).
      { unfold dd_pack_col. destruct (_ <=? _); cbn [fst].
        - split; [by destruct groups|]. split.
          + destruct groups as [|g gs]; [done|]. simpl.
            apply Forall_app. split; [done | by repeat constructor].
          + rewrite concat_app. reflexivity.
        - split; [by apply append_last_nonempty|].
          split; [by apply append_last_tail_nonempty|].
          by apply append_last_concat. }
      destruct Hstep as (Hne' & Htail' & Hcat').
      destruct (IH _ Hne' Htail') as (Hcat & Hne'' & Htail'').
      split; [|done]. rewrite Hcat, Hcat'. cbn [fst].
      by rewrite <- app_assoc. }
  apply (Hgen cols ([[]], 0)); simpl; [done | constructor].
Qed.

Lemma elem_of_concat_group (gs : list (list string)) (g : list string)
    (c : string) :
  g ∈ gs -> c ∈ g -> c ∈ concat gs.
Proof.
  intros Hg Hc. apply list_elem_of_In, in_concat.
  exists g. split; by apply list_elem_of_In.
Qed.

Lemma dd_col_groups_columns (max_width : nat) (widths : gmap string nat)
    (cols g : list string) :
  g ∈ dd_col_groups max_width widths cols -> Forall (fun c => c ∈ cols) g.
Proof.
  intros Hg. apply Forall_forall. intros c Hc.
  destruct (dd_col_groups_partition max_width widths cols) as [<- _].
  by eapply elem_of_concat_group.
Qed.

(** X19: every column group of the table is a rectangle: its rules, its
    heading and its rows all have the same number of characters. *)
Theorem dd_table_rectangular (egs : list Example) (max_width : nat) :
  Forall (fun cg_lines =>
            exists n, Forall (fun l => String.length l = n) cg_lines)
         (dd_table egs max_width).
Proof.
  unfold dd_table. cbv zeta. apply Forall_lookup_2. intros i cg Hi.
  rewrite list_lookup_imap in Hi.
  destruct (_ !! i) as [g|] eqn:Hg; simpl in Hi; [|discriminate].
  injection Hi as <-. eexists.
  apply (dd_cg_lines_width (dd_cols egs)); [apply dd_fill_fits|].
  eapply dd_col_groups_columns, list_elem_of_lookup_2, Hg.
Qed.

Lemma dd_first_group_within_width_witness :
  exists lines rest,
    dd_table [dup_example] MAX_WIDTH = lines :: rest
    /\ Forall (fun l => String.length l < MAX_WIDTH) lines.
Proof.
  apply (dd_first_group_within_width [dup_example] MAX_WIDTH
           ["f1"; "f2"; "f3"] [["f4"; "f5"; "f6"; "f7"]]).
  - vm_compute. reflexivity.
  - discriminate.
Defined.

(** ** How far a line can exceed the width *)

Lemma dd_init_narrow (cols : list string) : dd_narrow (dd_init cols).
Proof.
  intros c. unfold dd_init. cbn [col_widths].
  rewrite lookup_total_alt, lookup_list_to_map_keys. dd_consts.
  destruct (decide (c ∈ cols)); simpl; lia.
Qed.

Lemma dd_fill_cell_narrow (eg : Example) (st : dd_state) (col : string) :
  dd_narrow st -> dd_narrow (dd_fill_cell eg st col).
Proof.
  intros Hst c. unfold dd_fill_cell.
  destruct (dd_cell eg col) as [val_str|]; cbn [col_widths]; [|apply Hst].
  rewrite lookup_total_insert. specialize (Hst c).
  destruct (decide (col = c)) as [->|]; [|done]. dd_consts. lia.
Qed.

Lemma dd_fill_narrow (egs : list Example) (cols : list string) :
  dd_narrow (dd_fill egs cols).
Proof.
  unfold dd_fill.
  assert (Hrow : forall eg l st,
            dd_narrow st -> dd_narrow (fold_left (dd_fill_cell eg) l st)).
  { intros eg l. induction l as [|c l IH]; intros st Hst; simpl; [done|].
    apply IH. by apply dd_fill_cell_narrow. }
  generalize (dd_init_narrow cols). generalize (dd_init cols).
  induction egs as [|eg egs IH]; intros st Hst; simpl; [done|].
  apply IH. by apply Hrow.
Qed.

Lemma append_last_snoc (gs : list (list string)) (g : list string)
    (col : string) :
  append_last (gs ++ [g]) col = gs ++ [g ++ [col]].
Proof.
  induction gs as [|g' gs IH]; [reflexivity|].
  change (append_last (g' :: (gs ++ [g])) col = g' :: (gs ++ [g ++ [col]])).
  rewrite <- IH. by destruct gs.
Qed.

Lemma group_width_tail_le (widths : gmap string nat) (g : list string) :
  group_width widths (tail g) <= group_width widths g.
Proof. destruct g as [|c g]; unfold group_width; simpl; lia. Qed.

Lemma dd_pack_col_tail_inv (max_width : nat) (widths : gmap string nat)
    (st : list (list string) * nat) (col : string) :
  pack_tail_inv max_width widths st ->
  pack_tail_inv max_width widths (dd_pack_col max_width widths st col).
Proof.
  destruct st as [groups tot].
  intros (Hall & gs & g & Hg & Htot & Hne). cbn [fst snd] in *. subst groups.
  unfold dd_pack_col.
  destruct (Nat.leb_spec max_width (tot + ((widths !!! col) + BORDER_SZ)))
    as [Hge|Hlt].
  - split; cbn [fst snd].
    + apply Forall_app. split; [done|].
      apply Forall_cons. split; [by left | constructor].
    + exists (gs ++ [g]), [col]. repeat split; try done.
      all: by destruct gs.
  - rewrite append_last_snoc.
    apply Forall_app in Hall as [Hgs Hlast].
    apply Forall_cons in Hlast as [Hlast _].
    assert (Hnew : tail (g ++ [col]) = []
                   \/ group_width widths (tail (g ++ [col])) < max_width
                      /\ tot + ((widths !!! col) + BORDER_SZ)
                         = group_width widths
                             (match gs with
                              | [] => g ++ [col]
                              | _ => tail (g ++ [col])
                              end)).
    { destruct g as [|c0 t].
      - destruct gs; [|by destruct Hne]. left. reflexivity.
      - right. cbn [app tail].
        rewrite group_width_app.
        destruct gs as [|g' gs].
        + change ((c0 :: t) ++ [col]) with (c0 :: (t ++ [col])).
          pose proof (group_width_tail_le widths (c0 :: t)) as Hle.
          cbn [tail] in Hle.
          assert (group_width widths (c0 :: t ++ [col])
                  = group_width widths (c0 :: t)
                    + ((widths !!! col) + BORDER_SZ)) as ->
            by apply (group_width_app widths (c0 :: t) col).
          change (tot = group_width widths (c0 :: t)) in Htot.
          clear Hne Hgs Hlast. lia.
        + change (tot = group_width widths t) in Htot.
          cbn [tail]. rewrite group_width_app.
          clear Hne Hgs Hlast. lia. }
    split; cbn [fst snd].
    + apply Forall_app. split; [done|].
      apply Forall_cons. split; [|constructor].
      destruct Hnew as [?|[? _]]; [by left | by right].
    + exists gs, (g ++ [col]). split; [done|]. split.
      * destruct Hnew as [Hnil|[_ Heq]]; [|done].
        destruct g as [|c0 t]; [|by destruct t].
        destruct gs; [|by destruct Hne]. simpl in Htot. subst tot.
        unfold group_width. simpl. lia.
      * intros _. by destruct g.
Qed.

Lemma dd_col_groups_tail_inv (max_width : nat) (widths : gmap string nat)
    (cols : list string) :
  Forall (fun g => tail g = [] \/ group_width widths (tail g) < max_width)
         (dd_col_groups max_width widths cols).
Proof.
  unfold dd_col_groups.
  assert (Hgen : forall l st,
            pack_tail_inv max_width widths st ->
            pack_tail_inv max_width widths
              (fold_left (dd_pack_col max_width widths) l st)).
  { induction l as [|c l IH]; intros st Hst; simpl; [done|].
    apply IH. by apply dd_pack_col_tail_inv. }
  apply Hgen. split; cbn [fst snd].
  - apply Forall_cons. split; [by left | constructor].
  - exists [], []. by repeat split.
Qed.

(** X20: a line of the table is never wider than [max_width] plus one
    cell and its borders: in every column group all columns but the first
    are counted against [max_width], and a cell has at most
    [DD_MAX_VAL_LEN] characters. *)
Theorem dd_line_width_bound (egs : list Example) (max_width : nat) :
  Forall (Forall (fun l => String.length l <= max_width + DD_MAX_VAL_LEN + 4))
         (dd_table egs max_width).
Proof.
  unfold dd_table. cbv zeta. apply Forall_lookup_2. intros i cg Hi.
  rewrite list_lookup_imap in Hi.
  destruct (_ !! i) as [g|] eqn:Hg; simpl in Hi; [|discriminate].
  injection Hi as <-.
  apply list_elem_of_lookup_2 in Hg.
  pose proof (dd_col_groups_columns _ _ _ _ Hg) as Hcols.
  pose proof (dd_col_groups_tail_inv max_width
                (col_widths (dd_fill egs (dd_cols egs))) (dd_cols egs))
    as Hinv.
  rewrite Forall_forall in Hinv. specialize (Hinv g Hg).
  pose proof (dd_fill_narrow egs (dd_cols egs)) as Hnarrow.
  eapply Forall_impl.
  - apply (dd_cg_lines_width (dd_cols egs)); [apply dd_fill_fits | done].
  - intros l ->.
    assert (Hb : forall n, String.length (borders (S i) n "") <= 4).
    { intros n. unfold borders.
      destruct (S i =? 1); [destruct (n =? 1)|destruct (S i <? n)];
        simpl; lia. }
    specialize (Hb (length (dd_col_groups max_width
                              (col_widths (dd_fill egs (dd_cols egs)))
                              (dd_cols egs)))).
    destruct g as [|c0 t]; [simpl; dd_consts; lia|].
    specialize (Hnarrow c0). cbn [tail] in Hinv.
    rewrite group_width_sum in Hinv. dd_consts.
    cbn [sum_list_with length].
    destruct Hinv as [->|Hinv]; simpl; lia.
Qed.
